(** * Gas Town merge queue: the [mq] commands, the refinery manager and the
      source control adapters.

    The development embeds
    - [cmd/mq.go] (the [mq retry], [mq list] and [mq reject] commands, with
      what they print, and [formatMRAge]),
    - [pkg/adapter/adapter.go] (the adapter interface and its registry),
    - [pkg/adapter/git.go] (the git adapter: its registration, [RigInit],
      [WorkerCreate], [getDefaultBranch], [Submit], [Sync], the worker
      no-ops and the setters),
    and, where the commands call into [internal/refinery] (whose code is
    not among the sources), a model of the refinery manager and of the
    merge queue processor that follows the specification.

    Conventions.  Go strings are [string]; Go [int] is [Z]; a Go map is a
    [gmap]; a slice is a [list]; a [(value, error)] result is a sum or a
    pair of options; pointers that the code dereferences without a nil
    test (tickets in a slice, a registered factory) are taken non-nil, and
    a pointer the code does test ([fields != nil]) is an [option]. *)

From Stdlib Require Import ZArith Ascii String List Bool Lia.
From Stdlib Require Import DecimalString DecimalZ.
From stdpp Require Import base option list strings gmap fin_maps.

Local Open Scope string_scope.

(** ** Tickets *)

(** Modelled from the spec: the record of a ticket.  The declarations of
    [beads.Issue] and [refinery.MergeRequest] are not under the sources;
    the fields are those of the data model (ID, Branch, Worker, Target,
    Priority, RawStatus, Error, CreatedAt, BlockedBy, BlockedByCount)
    together with what the commands read besides: the ticket type, the
    linked source issue, and the outcome and reason a closure records.
    [Status] is the raw status, a string as in the code
    ([issue.Status == open]); [CreatedAt] is a timestamp in seconds. *)
Record Issue := mkIssue {
  ID : string;
  IssueType : string;
  Status : string;
  Priority : Z;
  CreatedAt : Z;
  BlockedBy : list string;
  BlockedByCount : Z;
  Branch : string;
  Worker : string;
  Target : string;
  Error : string;
  IssueID : string;
  Outcome : string;
  CloseReason : string
}.

(** The fields [beads.ParseMRFields] extracts from a ticket, as far as the
    commands read them. *)
Record MRFields := mkMRFields {
  fBranch : string;
  fWorker : string;
  fTarget : string
}.

(** [len(issue.BlockedBy) > 0 || issue.BlockedByCount > 0] *)
Definition hasBlockers (issue : Issue) : bool :=
  (0 <? Z.of_nat (length (BlockedBy issue)))%Z || (0 <? BlockedByCount issue)%Z.

Definition isMergeRequest (issue : Issue) : bool :=
  String.eqb (IssueType issue) "merge-request".

(** ** internal/refinery: the manager and the processor *)

Module Refinery.

(** Modelled from the spec: the error kinds of the refinery manager
    (NotFound, NotFailed, AdapterFailure, StoreConflict); the package
    [internal/refinery] is not under the sources, the command reads its
    [ErrMRNotFound] and [ErrMRNotFailed]. *)
Inductive error :=
| ErrMRNotFound
| ErrMRNotFailed
| ErrAdapterFailure (detail : string)
| ErrStoreConflict.

(** Modelled from the spec: the five derived statuses. *)
Inductive DerivedStatus := Closed | InProgress | Failed | Blocked | Ready.

(** Modelled from the spec: the names of the derived statuses. *)
Definition statusName (d : DerivedStatus) : string :=
  match d with
  | Closed => "closed"
  | InProgress => "in_progress"
  | Failed => "failed"
  | Blocked => "blocked"
  | Ready => "ready"
  end.

(** Modelled from the spec: the status derivation of the manager, which
    is not under the sources.  closed, then in_progress, then failed
    (open, Error non-empty), then blocked (open, Error empty, BlockedBy
    non-empty or BlockedByCount > 0), then ready.  A raw status outside
    open, in_progress and closed has no derived status. *)
Definition derivedStatus (mr : Issue) : option DerivedStatus :=
  if String.eqb (Status mr) "closed" then Some Closed
  else if String.eqb (Status mr) "in_progress" then Some InProgress
  else if String.eqb (Status mr) "open" then
    if negb (String.eqb (Error mr) "") then Some Failed
    else if hasBlockers mr then Some Blocked
    else Some Ready
  else None.

(** Modelled from the spec: derived status exactly failed. *)
Definition isFailed (mr : Issue) : bool :=
  match derivedStatus mr with Some Failed => true | _ => false end.

(** Modelled from the spec: derived status exactly ready. *)
Definition isReady (mr : Issue) : bool :=
  match derivedStatus mr with Some Ready => true | _ => false end.

(** Modelled from the spec: the field updates the manager and the
    processor write to a ticket. *)
Definition setStatus (s : string) (mr : Issue) : Issue :=
  mkIssue (ID mr) (IssueType mr) s (Priority mr) (CreatedAt mr)
    (BlockedBy mr) (BlockedByCount mr) (Branch mr) (Worker mr) (Target mr)
    (Error mr) (IssueID mr) (Outcome mr) (CloseReason mr).

(** Modelled from the spec: the Error field written. *)
Definition setError (e : string) (mr : Issue) : Issue :=
  mkIssue (ID mr) (IssueType mr) (Status mr) (Priority mr) (CreatedAt mr)
    (BlockedBy mr) (BlockedByCount mr) (Branch mr) (Worker mr) (Target mr)
    e (IssueID mr) (Outcome mr) (CloseReason mr).


(** Modelled from the spec: closure with an outcome and a reason. *)
Definition closeWith (outcome reason : string) (mr : Issue) : Issue :=
  mkIssue (ID mr) (IssueType mr) "closed" (Priority mr) (CreatedAt mr)
    (BlockedBy mr) (BlockedByCount mr) (Branch mr) (Worker mr) (Target mr)
    (Error mr) (IssueID mr) outcome reason.

(** Modelled from the spec: an adapter failure recorded, the raw status
    back to open. *)
Definition failWith (detail : string) (mr : Issue) : Issue :=
  setError detail (setStatus "open" mr).

(** Modelled from the spec: the ticket store's guarded update,
    [Update(id, fields, expectedPriorStatus)]: it writes only if the
    stored status is the expected one, and is a StoreConflict otherwise. *)
Definition Update (st : gmap string Issue) (id : string)
    (fields : Issue -> Issue) (expected : string) : gmap string Issue + error :=
  match st !! id with
  | Some mr =>
      if String.eqb (Status mr) expected then inl (<[id := fields mr]> st)
      else inr ErrStoreConflict
  | None => inr ErrMRNotFound
  end.

(** Modelled from the spec: [GetMR(id)] returns the record or fails with
    NotFound; the manager sees merge-request tickets only. *)
Definition GetMR (st : gmap string Issue) (id : string) : Issue + error :=
  match st !! id with
  | Some mr => if isMergeRequest mr then inl mr else inr ErrMRNotFound
  | None => inr ErrMRNotFound
  end.

(** Modelled from the spec: what a rejection returns, the resolved
    branch and worker and the linked issue, if any (the command reads
    [result.Branch], [result.Worker] and [result.IssueID]). *)
Record RejectResult := mkRejectResult {
  rBranch : string;
  rWorker : string;
  rIssueID : string
}.

(** Modelled from the spec: resolution by branch, the first merge-request
    ticket of the store whose branch is exactly the given one. *)
Definition findByBranch (st : gmap string Issue) (branch : string)
    : option (string * Issue) :=
  List.find (fun p => isMergeRequest p.2 && String.eqb (Branch p.2) branch)
    (map_to_list st).

(** Modelled from the spec: by ID first, then by branch. *)
Definition resolveMR (st : gmap string Issue) (idOrBranch : string)
    : option (string * Issue) :=
  match GetMR st idOrBranch with
  | inl mr => Some (idOrBranch, mr)
  | inr _ => findByBranch st idOrBranch
  end.

(** *** Selection *)

(** Modelled from the spec: [a] goes before [b] when its priority number
    is lower, or equal with a creation time that is not later. *)
Definition before (a b : Issue) : bool :=
  (Priority a <? Priority b)%Z
  || ((Priority a =? Priority b)%Z && (CreatedAt a <=? CreatedAt b)%Z).

(** Modelled from the spec: the same order as a proposition. *)
Definition notAfter (a b : Issue) : Prop :=
  (Priority a < Priority b)%Z
  \/ (Priority a = Priority b /\ (CreatedAt a <= CreatedAt b)%Z).

(** Modelled from the spec: the best of a candidate and a list, by
    [before]; on a tie the earlier candidate stays. *)
Fixpoint pick (best : string * Issue) (l : list (string * Issue))
    : string * Issue :=
  match l with
  | [] => best
  | c :: l' => pick (if before best.2 c.2 then best else c) l'
  end.

(** Modelled from the spec: the selection among candidates, none when
    there is no candidate. *)
Definition selectFrom (l : list (string * Issue)) : option (string * Issue) :=
  match l with
  | [] => None
  | c :: l' => Some (pick c l')
  end.

(** Modelled from the spec: the derived-ready merge requests of a
    target. *)
Definition readyFor (target : string) (st : gmap string Issue)
    : list (string * Issue) :=
  List.filter
    (fun p => isMergeRequest p.2 && isReady p.2 && String.eqb (Target p.2) target)
    (map_to_list st).

(** Modelled from the spec: the selection of the processor, the lowest
    priority number among the derived-ready requests of a target, ties
    broken by the earliest creation time. *)
Definition selectNext (target : string) (st : gmap string Issue)
    : option (string * Issue) :=
  selectFrom (readyFor target st).



(** Modelled from the spec: the end of an attempt.  Success closes the
    request; an adapter failure records the detail and returns the raw
    status to open.  Either write is guarded by the status in_progress, so
    that a request rejected meanwhile is not closed again as merged. *)
Definition finish (st : gmap string Issue) (id : string) (outcome : option string)
    : gmap string Issue + error :=
  match outcome with
  | None => Update st id (closeWith "merged" "") "in_progress"
  | Some detail => Update st id (failWith detail) "in_progress"
  end.

Section Manager.

(** The collaborators of the manager: the adapter's [Sync(worker)] and
    [Submit(worker)] ([None] on success, the failure detail otherwise) and
    the notifier's [Notify(worker, message)]. *)
Variable adapterSync : string -> option string.
Variable adapterSubmit : string -> option string.
Variable notifier : string -> string -> option string.

(** Modelled from the spec: the adapter calls of an attempt, Sync then
    Submit. *)
Definition runAdapter (worker : string) : option string :=
  match adapterSync worker with
  | Some detail => Some detail
  | None => adapterSubmit worker
  end.

(** Modelled from the spec: the attempt on one request.  Mark it
    in_progress, run the adapter, close it or record the failure. *)
Definition ProcessMR (st : gmap string Issue) (id : string)
    : gmap string Issue * option error :=
  match Update st id (setStatus "in_progress") "open" with
  | inr e => (st, Some e)
  | inl st1 =>
      match st1 !! id with
      | None => (st1, Some ErrMRNotFound)
      | Some mr =>
          let outcome := runAdapter (Worker mr) in
          match finish st1 id outcome with
          | inr e => (st1, Some e)
          | inl st2 =>
              (st2, match outcome with
                    | None => None
                    | Some detail => Some (ErrAdapterFailure detail)
                    end)
          end
      end
  end.

(** Modelled from the spec: [Retry(id, immediate)].  NotFound if absent;
    NotFailed unless the derived status is exactly failed; otherwise the
    Error is cleared and, if [immediate], the merge attempt is performed
    before returning. *)
Definition Retry (st : gmap string Issue) (id : string) (immediate : bool)
    : gmap string Issue * option error :=
  match GetMR st id with
  | inr e => (st, Some e)
  | inl mr =>
      if isFailed mr then
        let st1 := <[id := setError "" mr]> st in
        if immediate then ProcessMR st1 id else (st1, None)
      else (st, Some ErrMRNotFailed)
  end.

(** Modelled from the spec: [RejectMR(idOrBranch, reason, notify)].  On a
    match the request is closed with outcome rejected and the reason
    recorded, whatever its state; nothing else in the store is written.
    A failed notification is logged, not returned. *)
Definition RejectMR (st : gmap string Issue) (idOrBranch reason : string)
    (notify : bool)
    : gmap string Issue * (RejectResult + error) * list string :=
  match resolveMR st idOrBranch with
  | None => (st, inr ErrMRNotFound, [])
  | Some (k, mr) =>
      let st1 := <[k := closeWith "rejected" reason mr]> st in
      let log :=
        if notify then
          match notifier (Worker mr) reason with
          | Some e => ["notify failed: " +:+ e]
          | None => []
          end
        else [] in
      (st1, inl (mkRejectResult (Branch mr) (Worker mr) (IssueID mr)), log)
  end.

(** *** The scheduling step relation *)



End Manager.


End Refinery.

(** ** cmd/mq.go *)

Module MQ.

(** The display status of [runMQList] (the block commented
    "Determine display status"): the raw status, except that an open
    ticket shows as blocked or ready. *)
Definition displayStatus (issue : Issue) : string :=
  if String.eqb (Status issue) "open" then
    if hasBlockers issue then "blocked" else "ready"
  else Status issue.

(** The flags of [mq list]. *)
Record ListFlags := mkListFlags {
  mqListReady : bool;
  mqListStatus : string;
  mqListWorker : string;
  mqListEpic : string;
  mqListJSON : bool
}.

(** [beads.ListOptions], the two fields the command sets. *)
Record ListOptions := mkListOptions {
  optType : string;
  optStatus : string
}.

(** The options [runMQList] builds: the merge-request type, the status
    filter if given, and otherwise open unless the ready listing is asked. *)
Definition listOptions (f : ListFlags) : ListOptions :=
  let opts := mkListOptions "merge-request" "" in
  if negb (String.eqb (mqListStatus f) "") then
    mkListOptions (optType opts) (mqListStatus f)
  else if negb (mqListReady f) then
    mkListOptions (optType opts) "open"
  else opts.

Section Listing.

(** What the command takes from elsewhere: whether
    [getRefineryManager(rigName)] fails, the ticket store's [b.Ready()]
    and [b.List(opts)], [beads.ParseMRFields] and [strings.EqualFold]. *)
Variable getRefineryManager : string -> option string.
Variable bReady : list Issue + string.
Variable bList : ListOptions -> list Issue + string.
Variable ParseMRFields : Issue -> option MRFields.
Variable EqualFold : string -> string -> bool.

(** The tickets queried: the ready query narrowed to merge requests, or
    the list query. *)
Definition queryIssues (f : ListFlags) : list Issue + string :=
  if mqListReady f then
    match bReady with
    | inr err => inr ("querying ready MRs: " +:+ err)
    | inl allReady => inl (List.filter isMergeRequest allReady)
    end
  else
    match bList (listOptions f) with
    | inr err => inr ("querying merge queue: " +:+ err)
    | inl issues => inl issues
    end.

(** One round of the loop "Apply additional filters": [false] where the
    loop says [continue]. *)
Definition keepIssue (f : ListFlags) (issue : Issue) : bool :=
  let fields := ParseMRFields issue in
  (if negb (String.eqb (mqListWorker f) "") then
     let worker := match fields with Some fs => fWorker fs | None => "" end in
     EqualFold worker (mqListWorker f)
   else true)
  &&
  (if negb (String.eqb (mqListEpic f) "") then
     let target := match fields with Some fs => fTarget fs | None => "" end in
     let expectedTarget := "integration/" +:+ mqListEpic f in
     String.eqb target expectedTarget
   else true).

(** [runMQList] up to the slice [filtered], which is what the JSON output
    encodes and what the table prints row by row; the rendering of the
    table (styles, column widths, ages read off the clock) is left out. *)
Definition runMQList (rigName : string) (f : ListFlags) : list Issue + string :=
  match getRefineryManager rigName with
  | Some err => inr err
  | None =>
      match queryIssues f with
      | inr err => inr err
      | inl issues => inl (List.filter (keepIssue f) issues)
      end
  end.

End Listing.


Section Commands.

(** What the commands take from elsewhere: whether
    [getRefineryManager(rigName)] fails, the collaborators of the manager
    it returns, and the text of a manager error ([err.Error()]). *)
Variable getRefineryManager : string -> option string.
Variable adapterSync : string -> option string.
Variable adapterSubmit : string -> option string.
Variable notifier : string -> string -> option string.
Variable errorText : Refinery.error -> string.

(** [runMQRetry]: the error returned and the store left behind; [st] is
    the store of the rig's manager.  The progress lines printed are left
    out. *)
Definition runMQRetry (st : gmap string Issue) (rigName mrID : string)
    (mqRetryNow : bool) : gmap string Issue * option string :=
  match getRefineryManager rigName with
  | Some err => (st, Some err)
  | None =>
      match Refinery.GetMR st mrID with
      | inr Refinery.ErrMRNotFound =>
          (st, Some ("merge request '" +:+ mrID +:+ "' not found in rig '"
                     +:+ rigName +:+ "'"))
      | inr err => (st, Some ("getting merge request: " +:+ errorText err))
      | inl mr =>
          match Refinery.Retry adapterSync adapterSubmit st mrID mqRetryNow with
          | (st', Some Refinery.ErrMRNotFailed) =>
              (st', Some ("merge request '" +:+ mrID
                          +:+ "' has not failed (status: " +:+ Status mr +:+ ")"))
          | (st', Some err) =>
              (st', Some ("retrying merge request: " +:+ errorText err))
          | (st', None) => (st', None)
          end
      end
  end.

(** [runMQReject]: the error returned, the result printed and the store
    left behind. *)
Definition runMQReject (st : gmap string Issue) (rigName mrIDOrBranch : string)
    (mqRejectReason : string) (mqRejectNotify : bool)
    : gmap string Issue * (Refinery.RejectResult + string) :=
  match getRefineryManager rigName with
  | Some err => (st, inr err)
  | None =>
      match Refinery.RejectMR notifier st mrIDOrBranch mqRejectReason mqRejectNotify with
      | (st', inr err, _) => (st', inr ("rejecting MR: " +:+ errorText err))
      | (st', inl result, _) => (st', inl result)
      end
  end.

End Commands.

End MQ.

(** ** cmd/mq.go: what the commands print *)

Module MQOutput.

(** [fmt.Sprintf] of [P%d]. *)
Definition formatPriority (p : Z) : string :=
  "P" +:+ NilZero.string_of_int (Z.to_int p).

(** [if len(branch) > 30 { branch = branch[:27] + ... }], on bytes. *)
Definition truncateBranch (branch : string) : string :=
  if (30 <? String.length branch)%nat then String.substring 0 27 branch +:+ "..."
  else branch.

(** [if len(displayID) > 12 { displayID = displayID[:12] }], on bytes. *)
Definition truncateID (id : string) : string :=
  if (12 <? String.length id)%nat then String.substring 0 12 id else id.

(** One row of the table: the arguments of the [Printf] of the row, and
    the line about the first blocker when there is one. *)
Record Row := mkRow {
  colID : string;
  colStatus : string;
  colPriority : string;
  colBranch : string;
  colWorker : string;
  colAge : string;
  waitingOn : option string
}.


Section Printing.

(** [style.Bold.Render], [style.Dim.Render], [formatMRAge] (which reads
    the clock) and [beads.ParseMRFields]. *)
Variable Bold : string -> string.
Variable Dim : string -> string.
Variable formatMRAge : Z -> string.
Variable ParseMRFields : Issue -> option MRFields.

(** The switch "Format status with styling". *)
Definition styleStatus (displayStatus : string) : string :=
  if String.eqb displayStatus "ready" then Bold "ready"
  else if String.eqb displayStatus "in_progress" then Bold "in_progress"
  else if String.eqb displayStatus "blocked" then Dim "blocked"
  else if String.eqb displayStatus "closed" then Dim "closed"
  else displayStatus.

(** One round of the loop "Print each MR". *)
Definition tableRow (issue : Issue) : Row :=
  let fields := ParseMRFields issue in
  let displayStatus := MQ.displayStatus issue in
  let styledStatus := styleStatus displayStatus in
  let branch := match fields with Some fs => fBranch fs | None => "" end in
  let worker := match fields with Some fs => fWorker fs | None => "" end in
  let branch := truncateBranch branch in
  let priority := formatPriority (Priority issue) in
  let age := formatMRAge (CreatedAt issue) in
  let displayID := truncateID (ID issue) in
  mkRow displayID styledStatus priority branch worker (Dim age)
    (if String.eqb displayStatus "blocked"
        && (0 <? length (BlockedBy issue))%nat then
       match BlockedBy issue with
       | blocker :: _ =>
           Some (Dim ("             (waiting on " +:+ blocker +:+ ")"))
       | [] => None
       end
     else None).


Variable getRefineryManager : string -> option string.
Variable bReady : list Issue + string.
Variable bList : MQ.ListOptions -> list Issue + string.
Variable EqualFold : string -> string -> bool.


(** The manager behind the commands: its state and its three calls. *)
Variable Manager : Type.
Variable mgrGetMR : Manager -> string -> Issue + Refinery.error.
Variable mgrRetry : Manager -> string -> bool -> Manager * option Refinery.error.
Variable mgrRejectMR :
  Manager -> string -> string -> bool ->
  Manager * (Refinery.RejectResult + Refinery.error).
Variable errorText : Refinery.error -> string.

(** The lines "Show what we're retrying". *)
Definition retryHeader (mrID : string) (mr : Issue) : list string :=
  ["Retrying merge request: " +:+ mrID;
   "  Branch: " +:+ Branch mr;
   "  Worker: " +:+ Worker mr]
  ++ (if negb (String.eqb (Error mr) "") then
        ["  Previous error: " +:+ Dim (Error mr)]
      else []).

(** The lines after a retry that did not fail. *)
Definition retryFooter (mqRetryNow : bool) : list string :=
  if mqRetryNow then
    [Bold "âœ“" +:+ " Merge request processed"]
  else
    [Bold "âœ“" +:+ " Merge request queued for retry";
     "  " +:+ Dim "Will be processed on next refinery cycle"].

(** [runMQRetry] with what it prints: the manager after, the lines
    printed and the error returned. *)
Definition runMQRetryOutput (mgr : Manager) (rigName mrID : string)
    (mqRetryNow : bool) : Manager * list string * option string :=
  match getRefineryManager rigName with
  | Some err => (mgr, [], Some err)
  | None =>
      match mgrGetMR mgr mrID with
      | inr Refinery.ErrMRNotFound =>
          (mgr, [], Some ("merge request '" +:+ mrID +:+ "' not found in rig '"
                          +:+ rigName +:+ "'"))
      | inr err => (mgr, [], Some ("getting merge request: " +:+ errorText err))
      | inl mr =>
          match mgrRetry mgr mrID mqRetryNow with
          | (mgr', Some Refinery.ErrMRNotFailed) =>
              (mgr', retryHeader mrID mr,
               Some ("merge request '" +:+ mrID
                     +:+ "' has not failed (status: " +:+ Status mr +:+ ")"))
          | (mgr', Some err) =>
              (mgr', retryHeader mrID mr,
               Some ("retrying merge request: " +:+ errorText err))
          | (mgr', None) =>
              (mgr', (retryHeader mrID mr ++ retryFooter mqRetryNow)%list, None)
          end
      end
  end.



End Printing.

End MQOutput.

(** ** cmd/mq.go: the age of a merge request *)

Module MQAge.

(** [time.Minute] and [time.Hour], in nanoseconds. *)
Definition Minute : Z := 60 * 1000000000.
Definition Hour : Z := 60 * Minute.

(** [time.RFC3339] *)
Definition RFC3339 : string := "2006-01-02T15:04:05Z07:00".

(** The last byte of a string. *)
Fixpoint lastByte (s : string) : option ascii :=
  match s with
  | EmptyString => None
  | String c EmptyString => Some c
  | String _ s' => lastByte s'
  end.

(** [fmt.Sprintf] of [%d]. *)
Definition formatInt (n : Z) : string := NilZero.string_of_int (Z.to_int n).

Section Age.

(** [time.Parse(layout, value)] ([None] on an error), [time.Since(t)] in
    nanoseconds, and the conversions [int(d.Seconds())],
    [int(d.Minutes())], [int(d.Hours())] and [int(d.Hours()/24)], which
    go through floating point. *)
Variable Time : Type.
Variable Parse : string -> string -> option Time.
Variable Since : Time -> Z.
Variable intSeconds : Z -> Z.
Variable intMinutes : Z -> Z.
Variable intHours : Z -> Z.
Variable intDays : Z -> Z.

(** The two attempts of [formatMRAge] at parsing the timestamp. *)
Definition parseCreatedAt (createdAt : string) : option Time :=
  match Parse RFC3339 createdAt with
  | Some t => Some t
  | None => Parse "2006-01-02T15:04:05Z" createdAt
  end.

(** [formatMRAge] *)
Definition formatMRAge (createdAt : string) : string :=
  match parseCreatedAt createdAt with
  | None => "?"
  | Some t =>
      let d := Since t in
      if (d <? Minute)%Z then formatInt (intSeconds d) +:+ "s"
      else if (d <? Hour)%Z then formatInt (intMinutes d) +:+ "m"
      else if (d <? 24 * Hour)%Z then formatInt (intHours d) +:+ "h"
      else formatInt (intDays d) +:+ "d"
  end.

End Age.

End MQAge.

(** ** pkg/adapter *)

Module Adapter.

(** *** adapter.go: the interface *)

Inductive GoType := TString | TError | TRigConfig.

(** The methods of the interface [SourceControlAdapter]. *)
Inductive Method :=
| MRigInit | MWorkerCreate | MWorkerActivate | MWorkerDeactivate
| MBuildRoot | MSubmit | MSync.

Record Signature := mkSignature {
  params : list (string * GoType);
  results : list GoType
}.

(** The interface declaration, method by method: the named parameters and
    the result types. *)
Definition SourceControlAdapter (m : Method) : Signature :=
  match m with
  | MRigInit => mkSignature [("path", TString); ("config", TRigConfig)] [TError]
  | MWorkerCreate => mkSignature [("workerPath", TString)] [TError]
  | MWorkerActivate => mkSignature [("worker", TString)] [TError]
  | MWorkerDeactivate => mkSignature [("worker", TString)] [TError]
  | MBuildRoot => mkSignature [] [TString]
  | MSubmit => mkSignature [("worker", TString)] [TError]
  | MSync => mkSignature [] [TError]
  end.

(** *** adapter.go: the registry *)

Section Registry.

(** [A] is the type of adapter instances; a factory is a function that
    makes one.  [Quote] is the rendering of [%q]. *)
Context {A : Type}.
Variable Quote : string -> string.

(** [type AdapterFactory func() SourceControlAdapter] *)
Abbreviation AdapterFactory := (unit -> A) (only parsing).

(** [adapters[name] = factory] *)
Definition Register (name : string) (factory : AdapterFactory)
    (adapters : gmap string AdapterFactory) : gmap string AdapterFactory :=
  <[name := factory]> adapters.

(** The instance and the error of [Get]; a nil adapter is [None]. *)
Definition Get (name : string) (adapters : gmap string AdapterFactory)
    : option A * option string :=
  match adapters !! name with
  | None => (None, Some ("unknown adapter: " +:+ Quote name))
  | Some factory => (Some (factory tt), None)
  end.

(** The names of the map, in the order the map is ranged over. *)
Definition List (adapters : gmap string AdapterFactory) : list string :=
  List.map fst (map_to_list adapters).

Definition IsRegistered (name : string) (adapters : gmap string AdapterFactory)
    : bool :=
  match adapters !! name with
  | Some _ => true
  | None => false
  end.

End Registry.

(** *** git.go *)

(** A value of type [any] in [RigConfig.Extra]. *)
Inductive GoAny := AnyString (s : string) | AnyOther.

Record RigConfig := mkRigConfig {
  cfgAdapter : string;
  cfgWorkerMode : string;
  cfgBuildRoot : string;
  cfgExtra : gmap string GoAny
}.

Record GitAdapter := mkGitAdapter {
  rigPath : string;
  bareRepoPath : string;
  workerPath : string;
  config : RigConfig
}.

(** [&GitAdapter{}] *)
Definition emptyGitAdapter : GitAdapter :=
  mkGitAdapter "" "" "" (mkRigConfig "" "" "" ∅).

(** The registry after [init()]: the git adapter under its name. *)
Definition init (adapters : gmap string (unit -> GitAdapter))
    : gmap string (unit -> GitAdapter) :=
  Register "git" (fun _ => emptyGitAdapter) adapters.

(** A command to run: [exec.Command(name, args...)] with its [Dir]. *)
Record Cmd := mkCmd {
  cmdName : string;
  cmdArgs : list string;
  cmdDir : string
}.

(** How a command is run: [Output], [CombinedOutput] or [Run]. *)
Inductive Capture := Output | CombinedOutput | Run.

Module Git.

Section Exec.

(** The world outside: running a command gives its output and its error,
    if any, and changes the world.  [IsAbs] and [Join] are those of
    [path/filepath], [TrimSpace] that of [strings]. *)
Variable World : Type.
Variable exec : Capture -> Cmd -> World -> (string * option string) * World.
Variable IsAbs : string -> bool.
Variable Join : list string -> string.
Variable TrimSpace : string -> string.

(** No-op for parallel worktree mode. *)
Definition WorkerActivate (worker : string) (g : GitAdapter) (w : World)
    : GitAdapter * option string * World :=
  (g, None, w).

Definition WorkerDeactivate (worker : string) (g : GitAdapter) (w : World)
    : GitAdapter * option string * World :=
  (g, None, w).

Definition BuildRoot (g : GitAdapter) : string := workerPath g.

Definition SetWorkerPath (path : string) (g : GitAdapter) : GitAdapter :=
  mkGitAdapter (rigPath g) (bareRepoPath g) path (config g).

Definition SetRigPath (path : string) (g : GitAdapter) : GitAdapter :=
  mkGitAdapter path (Join [path; ".repo.git"]) (workerPath g) (config g).

(** The directory [Submit] works in. *)
Definition submitPath (worker : string) (g : GitAdapter) : string :=
  if negb (IsAbs worker) then Join [rigPath g; "polecats"; worker] else worker.

(** [Submit]: the error returned, if any, and the world after. *)
Definition Submit (worker : string) (g : GitAdapter) (w : World)
    : option string * World :=
  let workerPath := submitPath worker g in
  let branchCmd := mkCmd "git" ["rev-parse"; "--abbrev-ref"; "HEAD"] workerPath in
  match exec Output branchCmd w with
  | ((_, Some err), w1) => (Some ("getting current branch: " +:+ err), w1)
  | ((branchOutput, None), w1) =>
      let branch := TrimSpace branchOutput in
      let pushCmd := mkCmd "git" ["push"; "-u"; "origin"; branch] workerPath in
      match exec CombinedOutput pushCmd w1 with
      | ((output, Some err), w2) =>
          (Some ("pushing to remote: " +:+ err +:+ ": " +:+ output), w2)
      | ((_, None), w2) => (None, w2)
      end
  end.

(** [Sync]: the error returned, if any, and the world after. *)
Definition Sync (g : GitAdapter) (w : World) : option string * World :=
  if String.eqb (workerPath g) "" then (Some "no active worker", w)
  else
    let fetchCmd := mkCmd "git" ["fetch"; "origin"] (workerPath g) in
    match exec CombinedOutput fetchCmd w with
    | ((output, Some err), w1) =>
        (Some ("fetching from origin: " +:+ err +:+ ": " +:+ output), w1)
    | ((_, None), w1) =>
        let pullCmd := mkCmd "git" ["pull"; "--rebase"] (workerPath g) in
        match exec CombinedOutput pullCmd w1 with
        | ((output, Some err), w2) =>
            (Some ("pulling with rebase: " +:+ err +:+ ": " +:+ output), w2)
        | ((_, None), w2) => (None, w2)
        end
    end.

(** The same world, keeping a record of the commands run, oldest first. *)
Definition recording (c : Capture) (cmd : Cmd) (wl : World * list Cmd)
    : (string * option string) * (World * list Cmd) :=
  let '(r, w') := exec c cmd wl.1 in (r, (w', (wl.2 ++ [cmd])%list)).

End Exec.

(** [strings.Split(s, sep)] for a separator of one byte: the pieces
    between the occurrences of [sep], one more than there are occurrences. *)
Fixpoint Split (sep : ascii) (s : string) : list string :=
  match s with
  | EmptyString => [""]
  | String c s' =>
      if Ascii.eqb c sep then "" :: Split sep s'
      else
        match Split sep s' with
        | p :: ps => String c p :: ps
        | [] => [String c ""]
        end
  end.

(** Whether the byte [c] occurs in [s]. *)
Fixpoint hasByte (c : ascii) (s : string) : bool :=
  match s with
  | EmptyString => false
  | String c' s' => Ascii.eqb c' c || hasByte c s'
  end.

Section Workers.

(** The world outside, as above, with [os.MkdirAll]; [Join], [Dir] and
    [Base] are those of [path/filepath], [TrimSpace] that of [strings]. *)
Variable World : Type.
Variable exec : Capture -> Cmd -> World -> (string * option string) * World.
Variable MkdirAll : string -> Z -> World -> option string * World.
Variable Join : list string -> string.
Variable Dir : string -> string.
Variable Base : string -> string.
Variable TrimSpace : string -> string.

(** [config.Extra[key].(string)]: the string, and whether the value is
    one. *)
Definition extraString (config : RigConfig) (key : string) : string * bool :=
  match cfgExtra config !! key with
  | Some (AnyString s) => (s, true)
  | _ => ("", false)
  end.

(** The arguments of the clone, with a reference repository if one is
    configured. *)
Definition cloneArgs (localRepo gitURL bare : string) : list string :=
  if negb (String.eqb localRepo "") then
    ["clone"; "--bare"; "--reference"; localRepo; gitURL; bare]
  else
    ["clone"; "--bare"; gitURL; bare].

(** [RigInit]: the adapter after, the error returned, if any, and the
    world after.  The rig path and the configuration are stored first. *)
Definition RigInit (path : string) (cfg : RigConfig) (g : GitAdapter) (w : World)
    : GitAdapter * option string * World :=
  let g1 := mkGitAdapter path (bareRepoPath g) (workerPath g) cfg in
  let '(gitURL, ok) := extraString cfg "git_url" in
  if negb ok || String.eqb gitURL "" then
    (g1, Some "git adapter requires git_url in config", w)
  else
    match MkdirAll path 493 w with
    | (Some err, w1) => (g1, Some ("creating rig directory: " +:+ err), w1)
    | (None, w1) =>
        let g2 := mkGitAdapter path (Join [path; ".repo.git"]) (workerPath g) cfg in
        let localRepo := (extraString cfg "local_repo").1 in
        let cmd := mkCmd "git" (cloneArgs localRepo gitURL (bareRepoPath g2)) "" in
        match exec CombinedOutput cmd w1 with
        | ((output, Some err), w2) =>
            (g2, Some ("cloning bare repo: " +:+ err +:+ ": " +:+ output), w2)
        | ((_, None), w2) => (g2, None, w2)
        end
    end.

(** The loop of [getDefaultBranch] over the common branch names: the
    first one that [rev-parse --verify] accepts. *)
Fixpoint firstVerified (branches : list string) (bare : string) (w : World)
    : option string * World :=
  match branches with
  | [] => (None, w)
  | branch :: rest =>
      let checkCmd := mkCmd "git" ["rev-parse"; "--verify"; branch] bare in
      match exec Run checkCmd w with
      | ((_, None), w1) => (Some branch, w1)
      | ((_, Some _), w1) => firstVerified rest bare w1
      end
  end.

(** The fallback of [getDefaultBranch]. *)
Definition fallbackBranch (bare : string) (w : World) : string * World :=
  match firstVerified ["main"; "master"] bare w with
  | (Some branch, w1) => (branch, w1)
  | (None, w1) => ("main", w1)
  end.

(** [getDefaultBranch]: the branch and the world after. *)
Definition getDefaultBranch (g : GitAdapter) (w : World) : string * World :=
  let cmd := mkCmd "git" ["symbolic-ref"; "refs/remotes/origin/HEAD"]
               (bareRepoPath g) in
  match exec Output cmd w with
  | ((output, None), w1) =>
      let ref := TrimSpace output in
      let parts := Split "/"%char ref in
      if (0 <? length parts)%nat then (List.last parts "", w1)
      else fallbackBranch (bareRepoPath g) w1
  | ((_, Some _), w1) => fallbackBranch (bareRepoPath g) w1
  end.

(** [WorkerCreate]: the adapter after, the error returned, if any, and
    the world after. *)
Definition WorkerCreate (path : string) (g : GitAdapter) (w : World)
    : GitAdapter * option string * World :=
  let g1 :=
    if String.eqb (bareRepoPath g) "" then
      mkGitAdapter (rigPath g) (Join [Dir (Dir path); ".repo.git"])
        (workerPath g) (config g)
    else g in
  let workerName := Base path in
  let branchName := "polecat/" +:+ workerName in
  let '(defaultBranch, w1) := getDefaultBranch g1 w in
  let cmd := mkCmd "git"
               ["worktree"; "add"; "-b"; branchName; path; defaultBranch]
               (bareRepoPath g1) in
  match exec CombinedOutput cmd w1 with
  | ((output, Some err), w2) =>
      (g1, Some ("creating worktree: " +:+ err +:+ ": " +:+ output), w2)
  | ((_, None), w2) =>
      (mkGitAdapter (rigPath g1) (bareRepoPath g1) path (config g1), None, w2)
  end.

(** The same world, keeping a record of the commands run with their
    errors and of the directories made, oldest first. *)
Definition tracing (c : Capture) (cmd : Cmd) (wl : World * list (Cmd * bool))
    : (string * option string) * (World * list (Cmd * bool)) :=
  let '(r, w') := exec c cmd wl.1 in
  (r, (w', (wl.2 ++ [(cmd, match r.2 with None => true | Some _ => false end)])%list)).

Definition tracingMkdirAll (path : string) (perm : Z) (wl : World * list (Cmd * bool))
    : option string * (World * list (Cmd * bool)) :=
  let '(r, w') := MkdirAll path perm wl.1 in (r, (w', wl.2)).

End Workers.

End Git.

End Adapter.

(** ** Sample tickets and settings *)

(** An open merge request whose last attempt failed, with no blockers. *)
Definition failedRequest : Issue :=
  mkIssue "mr-1" "merge-request" "open" 1 100 [] 0
    "polecat/Nux/work-1" "Nux" "main" "network error" "" "" "".

(** A merge request an attempt is running on: it has no blocker. *)
Definition claimedRequest : Issue :=
  mkIssue "mr-2" "merge-request" "in_progress" 1 200 [] 0
    "polecat/Toast/work-2" "Toast" "main" "" "" "" "".

(** A request blocked by its count alone. *)
Definition countBlockedRequest : Issue :=
  mkIssue "mr-3" "merge-request" "open" 1 300 [] 2
    "polecat/Capable/work-3" "Capable" "main" "" "" "" "".

(** A work item, which is not a merge request. *)
Definition workItem : Issue :=
  mkIssue "gt-abc" "task" "open" 2 50 [] 0 "" "" "" "" "" "" "".

(** [mq list --ready] *)
Definition readyFlags : MQ.ListFlags := MQ.mkListFlags true "" "" "" false.

(** A world in which every command succeeds and prints a branch name. *)
Definition quietExec (c : Adapter.Capture) (cmd : Adapter.Cmd) (w : unit)
    : (string * option string) * unit :=
  (("polecat/Nux", None), w).

(** [path/filepath] on a Unix system, as far as the samples go: a path is
    absolute when it starts with a slash, and [Join] puts a slash between
    the elements. *)
Definition unixIsAbs (p : string) : bool :=
  match p with
  | String c _ => Ascii.eqb c "/"%char
  | EmptyString => false
  end.

Definition unixJoin (elems : list string) : string :=
  String.concat "/" elems.

(** Two ready requests for two targets. *)
Definition readyMain : Issue :=
  mkIssue "mr-a" "merge-request" "open" 1 100 [] 0
    "polecat/Nux/work-a" "Nux" "main" "" "gt-abc" "" "".



(** A store with a failed request, one in progress, a blocked one and a
    work item. *)
Definition sampleStore : gmap string Issue :=
  <["mr-1" := failedRequest]> (<["mr-2" := claimedRequest]>
    (<["mr-3" := countBlockedRequest]> (<["gt-abc" := workItem]> ∅))).

(** Two ready requests for main: priority 1 created first, priority 0
    created later. *)
Definition earlyP1 : Issue :=
  mkIssue "mr-p1" "merge-request" "open" 1 100 [] 0
    "polecat/Nux/work-1" "Nux" "main" "" "" "" "".

Definition lateP0 : Issue :=
  mkIssue "mr-p0" "merge-request" "open" 0 900 [] 0
    "polecat/Toast/work-0" "Toast" "main" "" "" "" "".

Definition priorityStore : gmap string Issue :=
  <["mr-p1" := earlyP1]> (<["mr-p0" := lateP0]> ∅).

(** An adapter call that succeeds, and one that fails. *)
Definition adapterOk (worker : string) : option string := None.


(** Collaborators of the commands that do not fail. *)
Definition managerOk (rigName : string) : option string := None.

Definition notifyOk (worker message : string) : option string := None.

Definition plainErrorText (e : Refinery.error) : string :=
  match e with
  | Refinery.ErrMRNotFound => "merge request not found"
  | Refinery.ErrMRNotFailed => "merge request has not failed"
  | Refinery.ErrAdapterFailure detail => detail
  | Refinery.ErrStoreConflict => "store conflict"
  end.

(** A store in which the request [mr-a] is linked to the work item
    [gt-abc], next to a request in progress. *)
Definition rejectStore : gmap string Issue :=
  <["mr-a" := readyMain]> (<["gt-abc" := workItem]>
    (<["mr-2" := claimedRequest]> ∅)).

(** A world in which every command fails. *)
Definition failingExec (c : Adapter.Capture) (cmd : Adapter.Cmd) (w : unit)
    : (string * option string) * unit :=
  (("fatal: not a git repository", Some "exit status 128"), w).

(** A world in which only [symbolic-ref] and the check of main fail. *)
Definition masterOnlyExec (c : Adapter.Capture) (cmd : Adapter.Cmd) (w : unit)
    : (string * option string) * unit :=
  match Adapter.cmdArgs cmd with
  | [_; _; "master"] => (("", None), w)
  | "worktree" :: _ => (("", None), w)
  | _ => (("fatal", Some "exit status 128"), w)
  end.

(** Directories are made without error. *)
Definition quietMkdirAll (path : string) (perm : Z) (w : unit)
    : option string * unit :=
  (None, w).


Definition noURLConfig : Adapter.RigConfig :=
  Adapter.mkRigConfig "git" "worktree" ""
    (<["git_url" := Adapter.AnyOther]> ∅).

(** A ticket with a long ID and a long branch, blocked by two others. *)
Definition longRequest : Issue :=
  mkIssue "gt-mr-0123456789abcdef" "merge-request" "open" 2 400
    ["gt-mr-001"; "gt-mr-002"] 2
    "polecat/Capable/a-very-long-branch-name-for-work" "Capable" "main"
    "" "" "" "".

(** The merge-request fields of a ticket, read off the record. *)
Definition fieldsOf (issue : Issue) : option MRFields :=
  Some (mkMRFields (Branch issue) (Worker issue) (Target issue)).

(** * Properties *)

(** ** The display status of [mq list] *)

Section DisplayStatus.

Import MQ Refinery.

Lemma hasBlockers_true (i : Issue) :
  hasBlockers i = true <-> BlockedBy i <> [] \/ (0 < BlockedByCount i)%Z.
Proof.
  unfold hasBlockers. rewrite orb_true_iff, !Z.ltb_lt.
  destruct (BlockedBy i) as [|b l]; simpl; split; intros [H|H];
    auto; try lia; try congruence; try (left; lia).
Qed.

Lemma hasBlockers_false (i : Issue) :
  hasBlockers i = false <-> BlockedBy i = [] /\ (BlockedByCount i <= 0)%Z.
Proof.
  unfold hasBlockers. rewrite orb_false_iff, !Z.ltb_ge.
  destruct (BlockedBy i) as [|b l]; simpl; split; intros [H1 H2]; split; auto; try lia; try congruence.
Qed.

Lemma displayStatus_open (i : Issue) :
  Status i = "open" ->
  displayStatus i = if hasBlockers i then "blocked" else "ready".
Proof. intros H. unfold displayStatus. now rewrite H. Qed.

Lemma displayStatus_other (i : Issue) :
  Status i <> "open" -> displayStatus i = Status i.
Proof.
  intros H. unfold displayStatus.
  destruct (String.eqb_spec (Status i) "open"); congruence.
Qed.

(** C1, as stated, fails on [runMQList]: an open request with a non-empty
    Error and no blockers is shown as ready, where the derivation of the
    specification says failed. *)
Lemma displayStatus_ignores_error :
  Status failedRequest = "open" /\ Error failedRequest = "network error"
  /\ derivedStatus failedRequest = Some Failed
  /\ displayStatus failedRequest = "ready".
Proof. repeat split. Qed.

(** C1, amended: the status shown by [mq list] is a function of the raw
    status, BlockedBy and BlockedByCount alone, with the precedence closed,
    in_progress, blocked, ready; the Error is not read, so an open request
    is blocked or ready by its blockers whatever its Error, and the status
    shown is the derived status of the specification exactly when that one
    is not failed. *)
Theorem displayStatus_precedence (i j : Issue) :
  (Status i = Status j -> BlockedBy i = BlockedBy j ->
   BlockedByCount i = BlockedByCount j -> displayStatus i = displayStatus j)
  /\ (Status i = "closed" -> displayStatus i = "closed")
  /\ (Status i = "in_progress" -> displayStatus i = "in_progress")
  /\ (Status i = "open" -> BlockedBy i <> [] \/ (0 < BlockedByCount i)%Z ->
      displayStatus i = "blocked")
  /\ (Status i = "open" -> BlockedBy i = [] -> (BlockedByCount i <= 0)%Z ->
      displayStatus i = "ready")
  /\ (forall d, derivedStatus i = Some d -> d <> Failed ->
      displayStatus i = statusName d)
  /\ (derivedStatus i = Some Failed ->
      displayStatus i = if hasBlockers i then "blocked" else "ready").
Proof.
  repeat split.
  - intros Hs Hb Hc. unfold displayStatus, hasBlockers. now rewrite Hs, Hb, Hc.
  - intros H. rewrite displayStatus_other; congruence.
  - intros H. rewrite displayStatus_other; congruence.
  - intros H Hb. rewrite displayStatus_open by assumption.
    apply hasBlockers_true in Hb. now rewrite Hb.
  - intros H Hb Hc. rewrite displayStatus_open by assumption.
    assert (Hf : hasBlockers i = false) by (apply hasBlockers_false; auto).
    now rewrite Hf.
  - intros d Hd Hnf. unfold derivedStatus in Hd. unfold displayStatus.
    destruct (String.eqb_spec (Status i) "closed") as [E|_].
    { rewrite E. simpl. now inversion Hd. }
    destruct (String.eqb_spec (Status i) "in_progress") as [E|_].
    { rewrite E. simpl. now inversion Hd. }
    destruct (String.eqb (Status i) "open"); [|discriminate].
    destruct (negb (String.eqb (Error i) "")).
    { inversion Hd. congruence. }
    destruct (hasBlockers i); now inversion Hd.
  - intros Hd. unfold derivedStatus in Hd. unfold displayStatus.
    destruct (String.eqb (Status i) "closed"); [discriminate|].
    destruct (String.eqb (Status i) "in_progress"); [discriminate|].
    destruct (String.eqb (Status i) "open"); [reflexivity|discriminate].
Qed.

Lemma displayStatus_precedence_witness :
  displayStatus countBlockedRequest = "blocked"
  /\ displayStatus failedRequest = "ready".
Proof.
  split.
  - apply (proj1 (proj2 (proj2 (proj2
      (displayStatus_precedence countBlockedRequest countBlockedRequest))))).
    + reflexivity.
    + right. simpl. lia.
  - apply (proj1 (proj2 (proj2 (proj2 (proj2
      (displayStatus_precedence failedRequest failedRequest)))))).
    + reflexivity.
    + reflexivity.
    + simpl. lia.
Defined.

(** C6: for an open request with an empty Error, a positive
    BlockedByCount is enough for the status blocked, whatever the list
    BlockedBy holds, the empty list included. *)
Theorem blockedByCount_sufficient (i : Issue) :
  Status i = "open" -> Error i = "" -> (0 < BlockedByCount i)%Z ->
  displayStatus i = "blocked".
Proof.
  intros Hs _ Hc. rewrite displayStatus_open by assumption.
  assert (Hb : hasBlockers i = true) by (apply hasBlockers_true; auto).
  now rewrite Hb.
Qed.

Lemma blockedByCount_sufficient_witness :
  BlockedBy countBlockedRequest = []
  /\ displayStatus countBlockedRequest = "blocked".
Proof.
  split; [reflexivity|].
  apply (blockedByCount_sufficient countBlockedRequest);
    [reflexivity | reflexivity | simpl; lia].
Defined.

End DisplayStatus.

(** ** The ready listing of [mq list] *)

Section ReadyListing.

Import MQ Refinery.

Variable getRefineryManager : string -> option string.
Variable bReady : list Issue + string.
Variable bList : ListOptions -> list Issue + string.
Variable ParseMRFields : Issue -> option MRFields.
Variable EqualFold : string -> string -> bool.

Lemma isMergeRequest_true (i : Issue) :
  isMergeRequest i = true <-> IssueType i = "merge-request".
Proof. unfold isMergeRequest. apply String.eqb_eq. Qed.

Lemma runMQList_ready (rigName : string) (f : ListFlags) (out : list Issue) :
  mqListReady f = true ->
  runMQList getRefineryManager bReady bList ParseMRFields EqualFold rigName f
  = inl out ->
  exists allReady,
    bReady = inl allReady
    /\ out = List.filter (keepIssue ParseMRFields EqualFold f)
               (List.filter isMergeRequest allReady).
Proof.
  intros H. unfold runMQList, queryIssues. rewrite H.
  destruct (getRefineryManager rigName); [discriminate|].
  destruct bReady as [allReady|e]; [|discriminate].
  intros Hout. inversion Hout. eauto.
Qed.

(** C9, amended: with [--ready], every ticket listed is a merge-request
    ticket that the store's ready query returned, and every merge-request
    ticket of that query that passes the worker and epic filters is
    listed: the listing relies on the store's computation and checks no
    ticket against a derived status. *)
Theorem ready_listing_from_store (rigName : string) (f : ListFlags)
    (out : list Issue) :
  mqListReady f = true ->
  runMQList getRefineryManager bReady bList ParseMRFields EqualFold rigName f
  = inl out ->
  exists allReady,
    bReady = inl allReady
    /\ (forall r, In r out -> In r allReady /\ IssueType r = "merge-request")
    /\ (forall r, In r allReady -> IssueType r = "merge-request" ->
          keepIssue ParseMRFields EqualFold f r = true -> In r out).
Proof.
  intros H Hout.
  destruct (runMQList_ready rigName f out H Hout) as (allReady & Hb & ->).
  exists allReady. split; [exact Hb|]. split.
  - intros r Hr. apply filter_In in Hr as [Hr _].
    apply filter_In in Hr as [Hr Ht]. split; [assumption|].
    now apply isMergeRequest_true.
  - intros r Hr Ht Hk. apply filter_In. split; [|assumption].
    apply filter_In. split; [assumption|]. now apply isMergeRequest_true.
Qed.

End ReadyListing.

Lemma ready_listing_from_store_witness :
  exists allReady,
    @inl (list Issue) string [workItem; claimedRequest; failedRequest]
    = inl allReady
    /\ (forall r, In r [claimedRequest; failedRequest] ->
          In r allReady /\ IssueType r = "merge-request")
    /\ (forall r, In r allReady -> IssueType r = "merge-request" ->
          MQ.keepIssue (fun _ => None) String.eqb readyFlags r = true ->
          In r [claimedRequest; failedRequest]).
Proof.
  exact (ready_listing_from_store managerOk
           (inl [workItem; claimedRequest; failedRequest])
           (fun _ => inl []) (fun _ => None) String.eqb "gastown" readyFlags
           [claimedRequest; failedRequest] eq_refl eq_refl).
Defined.

(** C9, as stated, fails on [runMQList]: a merge request that the store's
    ready query returns is listed although its derived status is not
    ready; here one in progress, shown as such in the ready listing. *)
Lemma ready_listing_not_rechecked :
  MQ.runMQList managerOk (inl [workItem; claimedRequest])
    (fun _ => inl []) (fun _ => None) String.eqb "gastown" readyFlags
  = inl [claimedRequest]
  /\ Refinery.derivedStatus claimedRequest = Some Refinery.InProgress
  /\ MQ.displayStatus claimedRequest = "in_progress".
Proof. repeat split. Qed.

(** ** The adapter registry *)

Section RegistryFacts.

Import Adapter.

Context {A : Type}.
Variable Quote : string -> string.


Lemma List_lookup (name : string) (adapters : gmap string (unit -> A)) :
  In name (List adapters) <-> is_Some (adapters !! name).
Proof.
  unfold List. rewrite in_map_iff. split.
  - intros [[k f] [Hk Hin]]. simpl in Hk. subst k.
    apply list_elem_of_In, elem_of_map_to_list in Hin. eauto.
  - intros [f Hf]. exists (name, f). split; [reflexivity|].
    apply list_elem_of_In, elem_of_map_to_list. exact Hf.
Qed.


(** X4: [Register] leaves every other name as it was. *)
Theorem Register_frame (adapters : gmap string (unit -> A)) (name other : string)
    (factory : unit -> A) :
  name <> other ->
  Get Quote other (Register name factory adapters) = Get Quote other adapters
  /\ IsRegistered other (Register name factory adapters)
     = IsRegistered other adapters.
Proof.
  intros H. unfold Get, IsRegistered, Register.
  now rewrite lookup_insert_ne by assumption.
Qed.

(** X5: a second registration under a name replaces the first. *)
Theorem Register_twice (adapters : gmap string (unit -> A)) (name : string)
    (f1 f2 : unit -> A) :
  Register name f2 (Register name f1 adapters) = Register name f2 adapters.
Proof. unfold Register. apply insert_insert_eq. Qed.

End RegistryFacts.


(** ** The adapter contract: [Submit] and [Sync] *)

Section GitFacts.

Import Adapter.

Variable World : Type.
Variable exec : Capture -> Cmd -> World -> (string * option string) * World.
Variable IsAbs : string -> bool.
Variable Join : list string -> string.
Variable TrimSpace : string -> string.

Lemma Sync_no_active_worker (g : GitAdapter) (w : World) :
  workerPath g = "" -> Git.Sync World exec g w = (Some "no active worker", w).
Proof. intros H. unfold Git.Sync. now rewrite H. Qed.

Lemma Sync_by_workerPath (g g' : GitAdapter) (w : World) :
  workerPath g = workerPath g' -> Git.Sync World exec g w = Git.Sync World exec g' w.
Proof. intros H. unfold Git.Sync. now rewrite H. Qed.

(** X6: [Submit] does not read the worker path the adapter holds: two
    adapters with the same rig path submit a worker alike. *)
Theorem Submit_by_rigPath (worker : string) (g g' : GitAdapter) (w : World) :
  rigPath g = rigPath g' ->
  Git.Submit World exec IsAbs Join TrimSpace worker g w
  = Git.Submit World exec IsAbs Join TrimSpace worker g' w.
Proof. intros H. unfold Git.Submit, Git.submitPath. now rewrite H. Qed.

(** Every command [Sync] runs is run in the worker path the adapter holds. *)
Lemma Sync_commands (g : GitAdapter) (w : World) (log : list Cmd) :
  forall cmd,
    In cmd (Git.Sync (World * list Cmd) (Git.recording World exec) g (w, log)).2.2 ->
    In cmd log \/ cmdDir cmd = workerPath g.
Proof.
  intros cmd. unfold Git.Sync, Git.recording.
  destruct (String.eqb (workerPath g) ""); simpl; [auto|].
  destruct (exec CombinedOutput _ w) as [[o1 [e1|]] w1]; simpl.
  - rewrite in_app_iff. simpl. intros [H|[H|[]]]; [auto|]. subst cmd. auto.
  - destruct (exec CombinedOutput _ w1) as [[o2 [e2|]] w2]; simpl;
      rewrite !in_app_iff; simpl; intros [[H|[H|[]]]|[H|[]]]; auto; subst cmd; auto.
Qed.

(** Every command [Submit] runs is run in the directory of the worker it
    is given. *)
Lemma Submit_commands (worker : string) (g : GitAdapter) (w : World)
    (log : list Cmd) :
  forall cmd,
    In cmd (Git.Submit (World * list Cmd) (Git.recording World exec)
              IsAbs Join TrimSpace worker g (w, log)).2.2 ->
    In cmd log \/ cmdDir cmd = Git.submitPath IsAbs Join worker g.
Proof.
  intros cmd. unfold Git.Submit, Git.recording. simpl.
  destruct (exec Output _ w) as [[o1 [e1|]] w1]; simpl.
  - rewrite in_app_iff. simpl. intros [H|[H|[]]]; [auto|]. subst cmd. auto.
  - destruct (exec CombinedOutput _ w1) as [[o2 [e2|]] w2]; simpl;
      rewrite !in_app_iff; simpl; intros [[H|[H|[]]]|[H|[]]]; auto; subst cmd; auto.
Qed.

(** C2, amended: of the two, only [Submit] takes the worker as a
    parameter, [Submit(worker) -> error], and works in that worker's
    directory; [Sync() -> error] takes none and works in the worker path
    the adapter holds (set by [SetWorkerPath]), failing with no active
    worker when it holds none. *)
Theorem adapter_contract (worker path : string) (g g' : GitAdapter) (w : World) :
  SourceControlAdapter MSubmit = mkSignature [("worker", TString)] [TError]
  /\ SourceControlAdapter MSync = mkSignature [] [TError]
  /\ (forall cmd,
        In cmd (Git.Submit (World * list Cmd) (Git.recording World exec)
                  IsAbs Join TrimSpace worker g (w, [])).2.2 ->
        cmdDir cmd = Git.submitPath IsAbs Join worker g)
  /\ (forall cmd,
        In cmd (Git.Sync (World * list Cmd) (Git.recording World exec) g (w, [])).2.2 ->
        cmdDir cmd = workerPath g)
  /\ (workerPath g = workerPath g' ->
      Git.Sync World exec g w = Git.Sync World exec g' w)
  /\ (workerPath g = "" -> Git.Sync World exec g w = (Some "no active worker", w))
  /\ workerPath (Git.SetWorkerPath path g) = path.
Proof.
  split; [reflexivity|]. split; [reflexivity|].
  split. { intros cmd H. apply Submit_commands in H as [[]|H]. exact H. }
  split. { intros cmd H. apply Sync_commands in H as [[]|H]. exact H. }
  split. { apply Sync_by_workerPath. }
  split. { apply Sync_no_active_worker. }
  reflexivity.
Qed.

End GitFacts.

(** C2, as stated, fails on the interface: [Sync] has no parameter.  The
    adapter the registry makes for git holds no worker, and its [Sync]
    fails whichever worker is meant, where [Submit] of a worker runs its
    two commands in that worker's directory. *)
Lemma sync_takes_no_worker :
  Adapter.params (Adapter.SourceControlAdapter Adapter.MSync) = []
  /\ Adapter.params (Adapter.SourceControlAdapter Adapter.MSubmit)
     = [("worker", Adapter.TString)]
  /\ Adapter.Git.Sync (unit * list Adapter.Cmd)
       (Adapter.Git.recording unit quietExec) Adapter.emptyGitAdapter (tt, [])
     = (Some "no active worker", (tt, []))
  /\ Adapter.Git.Submit (unit * list Adapter.Cmd)
       (Adapter.Git.recording unit quietExec) unixIsAbs unixJoin (fun s => s)
       "Nux" (Adapter.Git.SetRigPath unixJoin "/rig" Adapter.emptyGitAdapter) (tt, [])
     = (None,
        (tt, [Adapter.mkCmd "git" ["rev-parse"; "--abbrev-ref"; "HEAD"] "/rig/polecats/Nux";
              Adapter.mkCmd "git" ["push"; "-u"; "origin"; "polecat/Nux"] "/rig/polecats/Nux"])).
Proof. split; [|split; [|split]]; reflexivity. Qed.

Lemma adapter_contract_witness :
  Adapter.Git.Sync unit quietExec Adapter.emptyGitAdapter tt
  = (Some "no active worker", tt)
  /\ Adapter.Git.Sync unit quietExec
       (Adapter.Git.SetWorkerPath "/rig/polecats/Nux" Adapter.emptyGitAdapter) tt
     = Adapter.Git.Sync unit quietExec
         (Adapter.Git.SetWorkerPath "/rig/polecats/Nux"
            (Adapter.Git.SetRigPath unixJoin "/rig" Adapter.emptyGitAdapter)) tt.
Proof.
  split.
  - apply (proj1 (proj2 (proj2 (proj2 (proj2 (proj2
      (adapter_contract unit quietExec unixIsAbs unixJoin (fun s => s)
         "Nux" "" Adapter.emptyGitAdapter Adapter.emptyGitAdapter tt))))))).
    reflexivity.
  - apply (proj1 (proj2 (proj2 (proj2 (proj2
      (adapter_contract unit quietExec unixIsAbs unixJoin (fun s => s)
         "Nux" ""
         (Adapter.Git.SetWorkerPath "/rig/polecats/Nux" Adapter.emptyGitAdapter)
         (Adapter.Git.SetWorkerPath "/rig/polecats/Nux"
            (Adapter.Git.SetRigPath unixJoin "/rig" Adapter.emptyGitAdapter)) tt)))))).
    reflexivity.
Defined.

(** ** Retry *)

Section RetryFacts.

Import Refinery.

Variable adapterSync : string -> option string.
Variable adapterSubmit : string -> option string.
Variable getRefineryManager : string -> option string.
Variable errorText : error -> string.

Lemma GetMR_Some (st : gmap string Issue) (id : string) (mr : Issue) :
  GetMR st id = inl mr <-> st !! id = Some mr /\ isMergeRequest mr = true.
Proof.
  unfold GetMR. destruct (st !! id) as [m|]; [|split; [discriminate|intros [H _]; discriminate]].
  destruct (isMergeRequest m) eqn:E; split.
  - intros H. inversion H. subst. auto.
  - intros [H _]. inversion H. reflexivity.
  - discriminate.
  - intros [H1 H2]. inversion H1. subst. congruence.
Qed.

Lemma GetMR_error (st : gmap string Issue) (id : string) (e : error) :
  GetMR st id = inr e -> e = ErrMRNotFound.
Proof.
  unfold GetMR. destruct (st !! id) as [m|]; [destruct (isMergeRequest m)|];
    intros H; inversion H; reflexivity.
Qed.




(** *** What a successful retry changes *)






End RetryFacts.

(** ** Reject *)

Section RejectFacts.

Import Refinery.

Variable notifier : string -> string -> option string.
Variable getRefineryManager : string -> option string.
Variable errorText : error -> string.

Lemma findByBranch_Some (st : gmap string Issue) (branch k : string) (mr : Issue) :
  findByBranch st branch = Some (k, mr) ->
  st !! k = Some mr /\ isMergeRequest mr = true /\ Branch mr = branch.
Proof.
  unfold findByBranch. intros H. apply find_some in H as [Hin Hp]. simpl in Hp.
  apply andb_true_iff in Hp as [Ht Hb]. apply String.eqb_eq in Hb.
  apply list_elem_of_In, elem_of_map_to_list in Hin. auto.
Qed.

Lemma findByBranch_None (st : gmap string Issue) (branch : string) :
  findByBranch st branch = None <->
  forall k mr, st !! k = Some mr -> isMergeRequest mr = true -> Branch mr <> branch.
Proof.
  unfold findByBranch. split.
  - intros H k mr Hl Ht Hb.
    assert (Hin : In (k, mr) (map_to_list st))
      by now apply list_elem_of_In, elem_of_map_to_list.
    pose proof (find_none _ _ H (k, mr) Hin) as Hf. simpl in Hf.
    rewrite Ht in Hf. simpl in Hf. apply String.eqb_neq in Hf. contradiction.
  - intros H. destruct (find _ _) as [[k mr]|] eqn:E; [|reflexivity].
    apply findByBranch_Some in E as (Hl & Ht & Hb). exfalso. exact (H k mr Hl Ht Hb).
Qed.

Lemma resolveMR_Some (st : gmap string Issue) (x k : string) (mr : Issue) :
  resolveMR st x = Some (k, mr) ->
  st !! k = Some mr /\ isMergeRequest mr = true /\ (k = x \/ Branch mr = x).
Proof.
  unfold resolveMR. destruct (GetMR st x) as [m|e] eqn:E.
  - intros H. inversion H. subst. apply GetMR_Some in E as [Hl Ht]. auto.
  - intros H. apply findByBranch_Some in H as (Hl & Ht & Hb). auto.
Qed.

Lemma RejectMR_resolved (st : gmap string Issue) (x reason k : string)
    (notify : bool) (mr : Issue) :
  resolveMR st x = Some (k, mr) ->
  exists log,
    RejectMR notifier st x reason notify
    = (<[k := closeWith "rejected" reason mr]> st,
       inl (mkRejectResult (Branch mr) (Worker mr) (IssueID mr)), log).
Proof. intros H. unfold RejectMR. rewrite H. eauto. Qed.

(** C5: [RejectMR] resolves its argument as an ID first and as a branch
    otherwise, and fails with NotFound, leaving the store as it was, only
    when neither resolves.  The request it resolves is closed with outcome
    rejected and the reason recorded, whatever its status and blockers;
    every other ticket, the linked work item among them, is left as it
    was.  The command returns what the manager returns. *)
Theorem reject_closes_request (st : gmap string Issue) (rigName x reason : string)
    (notify : bool) :
  (forall mr, st !! x = Some mr -> isMergeRequest mr = true ->
     resolveMR st x = Some (x, mr))
  /\ (GetMR st x = inr ErrMRNotFound ->
      forall k0 mr0, st !! k0 = Some mr0 -> isMergeRequest mr0 = true ->
        Branch mr0 = x ->
        exists k mr, resolveMR st x = Some (k, mr) /\ Branch mr = x)
  /\ (forall k mr, resolveMR st x = Some (k, mr) ->
      exists st' log,
        RejectMR notifier st x reason notify
        = (st', inl (mkRejectResult (Branch mr) (Worker mr) (IssueID mr)), log)
        /\ st !! k = Some mr /\ isMergeRequest mr = true
        /\ st' !! k = Some (closeWith "rejected" reason mr)
        /\ Status (closeWith "rejected" reason mr) = "closed"
        /\ Outcome (closeWith "rejected" reason mr) = "rejected"
        /\ CloseReason (closeWith "rejected" reason mr) = reason
        /\ derivedStatus (closeWith "rejected" reason mr) = Some Closed
        /\ (forall j, j <> k -> st' !! j = st !! j)
        /\ (forall w, st !! IssueID mr = Some w -> isMergeRequest w = false ->
              st' !! IssueID mr = Some w)
        /\ (getRefineryManager rigName = None ->
            MQ.runMQReject getRefineryManager notifier errorText
              st rigName x reason notify
            = (st', inl (mkRejectResult (Branch mr) (Worker mr) (IssueID mr)))))
  /\ (RejectMR notifier st x reason notify = (st, inr ErrMRNotFound, [])
      <-> GetMR st x = inr ErrMRNotFound
          /\ forall k mr, st !! k = Some mr -> isMergeRequest mr = true ->
               Branch mr <> x).
Proof.
  split; [|split; [|split]].
  - intros mr Hl Ht. unfold resolveMR.
    now rewrite (proj2 (GetMR_Some st x mr) (conj Hl Ht)).
  - intros Hg k0 mr0 Hl Ht Hb. unfold resolveMR. rewrite Hg.
    destruct (findByBranch st x) as [[k mr]|] eqn:E.
    + exists k, mr. split; [reflexivity|]. now apply findByBranch_Some in E.
    + exfalso. exact (proj1 (findByBranch_None st x) E k0 mr0 Hl Ht Hb).
  - intros k mr Hr. destruct (RejectMR_resolved st x reason k notify mr Hr) as [log Hrej].
    apply resolveMR_Some in Hr as (Hl & Ht & _).
    exists (<[k := closeWith "rejected" reason mr]> st), log.
    split; [exact Hrej|]. split; [exact Hl|]. split; [exact Ht|].
    split; [apply lookup_insert_eq|].
    split; [reflexivity|]. split; [reflexivity|]. split; [reflexivity|].
    split; [reflexivity|].
    split; [intros j Hj; now apply lookup_insert_ne|].
    split.
    + intros w Hw Hnt. rewrite lookup_insert_ne; [exact Hw|].
      intros ->. rewrite Hl in Hw. inversion Hw. subst. congruence.
    + intros Hm. unfold MQ.runMQReject. now rewrite Hm, Hrej.
  - split.
    + intros H. unfold RejectMR in H.
      destruct (resolveMR st x) as [[k mr]|] eqn:E; [discriminate|].
      unfold resolveMR in E. destruct (GetMR st x) as [m|e] eqn:G; [discriminate|].
      split; [f_equal; eapply GetMR_error; exact G|].
      now apply findByBranch_None.
    + intros [Hg Hn]. unfold RejectMR, resolveMR. rewrite Hg.
      now rewrite (proj2 (findByBranch_None st x) Hn).
Qed.

End RejectFacts.

(** ** Selection *)

Section SelectionFacts.

Import Refinery.

Lemma before_spec (a b : Issue) : before a b = true <-> notAfter a b.
Proof.
  unfold before, notAfter.
  rewrite orb_true_iff, andb_true_iff, Z.ltb_lt, Z.eqb_eq, Z.leb_le. tauto.
Qed.

Lemma before_false (a b : Issue) : before a b = false -> notAfter b a.
Proof.
  unfold before, notAfter. rewrite orb_false_iff, andb_false_iff.
  rewrite Z.ltb_ge, Z.eqb_neq, Z.leb_gt. lia.
Qed.

Lemma notAfter_trans (a b c : Issue) : notAfter a b -> notAfter b c -> notAfter a c.
Proof. unfold notAfter. lia. Qed.

Lemma notAfter_refl (a : Issue) : notAfter a a.
Proof. unfold notAfter. lia. Qed.

Lemma pick_spec (l : list (string * Issue)) : forall best,
  (pick best l = best \/ In (pick best l) l)
  /\ notAfter (pick best l).2 best.2
  /\ forall c, In c l -> notAfter (pick best l).2 c.2.
Proof.
  induction l as [|c l IH]; intros best; simpl.
  - split; [auto|]. split; [apply notAfter_refl|]. intros c [].
  - destruct (before best.2 c.2) eqn:E.
    + destruct (IH best) as (H1 & H2 & H3).
      split; [destruct H1; auto|]. split; [exact H2|].
      intros c' [<-|Hc]; [|auto].
      apply before_spec in E. eapply notAfter_trans; eassumption.
    + destruct (IH c) as (H1 & H2 & H3).
      split; [destruct H1 as [H1|H1]; auto|].
      apply before_false in E. split.
      * eapply notAfter_trans; eassumption.
      * intros c' [<-|Hc]; auto.
Qed.

Lemma selectFrom_spec (l : list (string * Issue)) :
  (l <> [] -> exists s, selectFrom l = Some s)
  /\ forall s, selectFrom l = Some s ->
       In s l /\ forall c, In c l -> notAfter s.2 c.2.
Proof.
  destruct l as [|c l]; simpl.
  - split; [congruence|discriminate].
  - split; [eauto|]. intros s H. inversion H. subst s.
    destruct (pick_spec l c) as (H1 & H2 & H3).
    split; [destruct H1 as [H1|H1]; auto|].
    intros c' [<-|Hc]; auto.
Qed.

Lemma isReady_true (mr : Issue) :
  isReady mr = true <-> derivedStatus mr = Some Ready.
Proof.
  unfold isReady. destruct (derivedStatus mr) as [[]|]; split; congruence.
Qed.

Lemma readyFor_In (target : string) (st : gmap string Issue) (k : string) (mr : Issue) :
  In (k, mr) (readyFor target st) <->
  st !! k = Some mr /\ isMergeRequest mr = true /\ isReady mr = true
  /\ Target mr = target.
Proof.
  unfold readyFor. rewrite filter_In. simpl.
  rewrite !andb_true_iff, String.eqb_eq.
  rewrite <- (elem_of_map_to_list st k mr), list_elem_of_In. tauto.
Qed.

(** C7: among the derived-ready requests of a target, the processor
    selects one, and the one it selects has the lowest priority number
    and, among those of that number, the earliest creation time.  So a
    ready request of priority 0 is selected before one of priority 1 for
    the same target, whichever was created first. *)
Theorem selection_by_priority_then_age (target : string) (st : gmap string Issue) :
  (forall k mr, st !! k = Some mr -> isMergeRequest mr = true ->
     derivedStatus mr = Some Ready -> Target mr = target ->
     exists s, selectNext target st = Some s)
  /\ (forall k mr, selectNext target st = Some (k, mr) ->
        st !! k = Some mr /\ isMergeRequest mr = true
        /\ derivedStatus mr = Some Ready /\ Target mr = target
        /\ forall k' mr', st !! k' = Some mr' -> isMergeRequest mr' = true ->
             derivedStatus mr' = Some Ready -> Target mr' = target ->
             (Priority mr < Priority mr')%Z
             \/ (Priority mr = Priority mr' /\ (CreatedAt mr <= CreatedAt mr')%Z)).
Proof.
  pose proof isReady_true as Hready.
  unfold selectNext. destruct (selectFrom_spec (readyFor target st)) as [Hex Hsel].
  split.
  - intros k mr Hl Ht Hr Hg. apply Hex. intros Hnil.
    assert (Hin : In (k, mr) (readyFor target st)).
    { apply readyFor_In. rewrite Hready. auto. }
    rewrite Hnil in Hin. destruct Hin.
  - intros k mr Hs. destruct (Hsel _ Hs) as [Hin Hmin].
    apply readyFor_In in Hin as (Hl & Ht & Hr & Hg). rewrite Hready in Hr.
    repeat (split; [assumption|]).
    intros k' mr' Hl' Ht' Hr' Hg'.
    apply (Hmin (k', mr')). apply readyFor_In. rewrite Hready. auto.
Qed.

End SelectionFacts.

(** ** The claim discipline *)

Section ClaimFacts.

Import Refinery.

Variable adapterSync : string -> option string.
Variable adapterSubmit : string -> option string.
Variable notifier : string -> string -> option string.













End ClaimFacts.

(** ** The theorems at sample stores *)




Lemma reject_closes_request_witness :
  exists st' log,
    Refinery.RejectMR notifyOk rejectStore "polecat/Nux/work-a" "superseded" true
    = (st', inl (Refinery.mkRejectResult "polecat/Nux/work-a" "Nux" "gt-abc"), log)
    /\ st' !! "mr-a" = Some (Refinery.closeWith "rejected" "superseded" readyMain)
    /\ st' !! "gt-abc" = Some workItem.
Proof.
  assert (H1 : Refinery.resolveMR rejectStore "polecat/Nux/work-a"
               = Some ("mr-a", readyMain)) by (vm_compute; reflexivity).
  assert (H2 : rejectStore !! "gt-abc" = Some workItem) by (vm_compute; reflexivity).
  assert (H3 : isMergeRequest workItem = false) by reflexivity.
  destruct (proj1 (proj2 (proj2 (reject_closes_request notifyOk managerOk
              plainErrorText rejectStore "gastown" "polecat/Nux/work-a"
              "superseded" true))) "mr-a" readyMain H1)
    as (st' & log & Hr & _ & _ & Hl & _ & _ & _ & _ & _ & Hw & _).
  exists st', log. split; [exact Hr|]. split; [exact Hl|]. exact (Hw workItem H2 H3).
Defined.

Lemma selection_by_priority_then_age_witness :
  Refinery.selectNext "main" priorityStore = Some ("mr-p0", lateP0)
  /\ ((Priority lateP0 < Priority earlyP1)%Z
      \/ (Priority lateP0 = Priority earlyP1
          /\ (CreatedAt lateP0 <= CreatedAt earlyP1)%Z))
  /\ (CreatedAt earlyP1 < CreatedAt lateP0)%Z.
Proof.
  assert (Hs : Refinery.selectNext "main" priorityStore = Some ("mr-p0", lateP0))
    by (vm_compute; reflexivity).
  assert (H1 : priorityStore !! "mr-p1" = Some earlyP1) by (vm_compute; reflexivity).
  assert (H2 : isMergeRequest earlyP1 = true) by reflexivity.
  assert (H3 : Refinery.derivedStatus earlyP1 = Some Refinery.Ready) by reflexivity.
  assert (H4 : Target earlyP1 = "main") by reflexivity.
  destruct (proj2 (selection_by_priority_then_age "main" priorityStore)
              "mr-p0" lateP0 Hs) as (_ & _ & _ & _ & Hmin).
  split; [exact Hs|]. split; [exact (Hmin "mr-p1" earlyP1 H1 H2 H3 H4)|].
  simpl. lia.
Defined.


(** ** Further properties of the registry and of the listing *)

(** X1: [init] registers the git adapter, whatever was registered before:
    [Get] of git makes an empty [GitAdapter], and git is among the names
    listed. *)
Theorem init_registers_git (Quote : string -> string)
    (adapters : gmap string (unit -> Adapter.GitAdapter)) :
  Adapter.Get Quote "git" (Adapter.init adapters)
  = (Some Adapter.emptyGitAdapter, None)
  /\ Adapter.IsRegistered "git" (Adapter.init adapters) = true
  /\ In "git" (Adapter.List (Adapter.init adapters)).
Proof.
  assert (Hl : Adapter.init adapters !! "git"
               = Some (fun _ : unit => Adapter.emptyGitAdapter))
    by apply lookup_insert_eq.
  split; [|split].
  - unfold Adapter.Get. now rewrite Hl.
  - unfold Adapter.IsRegistered. now rewrite Hl.
  - apply List_lookup. rewrite Hl. eauto.
Qed.

Section ListingFacts.

Import MQ.

Variable getRefineryManager : string -> option string.
Variable bReady : list Issue + string.
Variable bList : ListOptions -> list Issue + string.
Variable ParseMRFields : Issue -> option MRFields.
Variable EqualFold : string -> string -> bool.

(** X2: without [--ready] and without [--status], [mq list] asks the
    store for the open merge-request tickets, and lists tickets of the
    store's answer only, in the store's order. *)
Theorem listing_default_open (rigName : string) (f : ListFlags)
    (issues : list Issue) :
  getRefineryManager rigName = None ->
  mqListReady f = false -> mqListStatus f = "" ->
  bList (mkListOptions "merge-request" "open") = inl issues ->
  listOptions f = mkListOptions "merge-request" "open"
  /\ runMQList getRefineryManager bReady bList ParseMRFields EqualFold rigName f
     = inl (List.filter (keepIssue ParseMRFields EqualFold f) issues).
Proof.
  intros Hm Hr Hs Hb.
  assert (Ho : listOptions f = mkListOptions "merge-request" "open").
  { unfold listOptions. now rewrite Hs, Hr. }
  split; [exact Ho|].
  unfold runMQList, queryIssues. now rewrite Hm, Hr, Ho, Hb.
Qed.

(** X3: every ticket [mq list] returns passes the filters given: with
    [--worker], the worker parsed from the ticket (empty when the ticket
    has no merge-request fields) equals the filter up to case; with
    [--epic], the parsed target is the integration branch of the epic. *)
Theorem listing_filters (rigName : string) (f : ListFlags) (out : list Issue)
    (r : Issue) :
  runMQList getRefineryManager bReady bList ParseMRFields EqualFold rigName f
  = inl out ->
  In r out ->
  (mqListWorker f <> "" ->
   EqualFold (match ParseMRFields r with Some fs => fWorker fs | None => "" end)
     (mqListWorker f) = true)
  /\ (mqListEpic f <> "" ->
      match ParseMRFields r with Some fs => fTarget fs | None => "" end
      = "integration/" +:+ mqListEpic f).
Proof.
  unfold runMQList. destruct (getRefineryManager rigName); [discriminate|].
  destruct (queryIssues bReady bList f) as [issues|e]; [|discriminate].
  intros H Hin. inversion H. subst out. apply filter_In in Hin as [_ Hk].
  unfold keepIssue in Hk. apply andb_true_iff in Hk as [Hw He]. split.
  - intros Hne. apply String.eqb_neq in Hne. rewrite Hne in Hw. exact Hw.
  - intros Hne. apply String.eqb_neq in Hne. rewrite Hne in He.
    now apply String.eqb_eq in He.
Qed.

End ListingFacts.

Lemma listing_default_open_witness :
  MQ.runMQList managerOk (inr "unused") (fun _ => inl [failedRequest; workItem])
    (fun _ => None) String.eqb "gastown" (MQ.mkListFlags false "" "" "" false)
  = inl [failedRequest; workItem].
Proof.
  exact (proj2 (listing_default_open managerOk (inr "unused")
           (fun _ => inl [failedRequest; workItem]) (fun _ => None) String.eqb
           "gastown" (MQ.mkListFlags false "" "" "" false)
           [failedRequest; workItem] eq_refl eq_refl eq_refl eq_refl)).
Defined.

Lemma listing_filters_witness :
  String.eqb (Worker failedRequest) "Nux" = true.
Proof.
  exact (proj1 (listing_filters managerOk (inr "unused")
           (fun _ => inl [failedRequest])
           (fun i => Some (mkMRFields (Branch i) (Worker i) (Target i)))
           String.eqb "gastown" (MQ.mkListFlags false "" "Nux" "" false)
           [failedRequest] failedRequest eq_refl (or_introl eq_refl))
           ltac:(discriminate)).
Defined.

Lemma Register_frame_witness :
  Adapter.IsRegistered "git"
    (Adapter.Register "brazil" (fun _ => Adapter.emptyGitAdapter) (Adapter.init ∅))
  = Adapter.IsRegistered "git" (Adapter.init ∅).
Proof.
  exact (proj2 (Register_frame (fun s => s) (Adapter.init ∅) "brazil" "git"
                  (fun _ => Adapter.emptyGitAdapter) ltac:(discriminate))).
Defined.

Lemma Submit_by_rigPath_witness :
  Adapter.Git.Submit unit quietExec unixIsAbs unixJoin (fun s => s) "Nux"
    (Adapter.Git.SetWorkerPath "/rig/polecats/Toast"
       (Adapter.Git.SetRigPath unixJoin "/rig" Adapter.emptyGitAdapter)) tt
  = Adapter.Git.Submit unit quietExec unixIsAbs unixJoin (fun s => s) "Nux"
      (Adapter.Git.SetRigPath unixJoin "/rig" Adapter.emptyGitAdapter) tt.
Proof.
  exact (Submit_by_rigPath unit quietExec unixIsAbs unixJoin (fun s => s) "Nux"
           (Adapter.Git.SetWorkerPath "/rig/polecats/Toast"
              (Adapter.Git.SetRigPath unixJoin "/rig" Adapter.emptyGitAdapter))
           (Adapter.Git.SetRigPath unixJoin "/rig" Adapter.emptyGitAdapter)
           tt eq_refl).
Defined.


(** ** The names of the registry *)

Section RegistryListFacts.

Import Adapter.

Context {A : Type}.

Lemma map_fst_fmap (l : list (string * (unit -> A))) : List.map fst l = l.*1.
Proof. induction l as [|x l IH]; simpl; [reflexivity|]. now rewrite IH. Qed.

Lemma List_length (adapters : gmap string (unit -> A)) :
  length (List adapters) = size adapters.
Proof. unfold List. rewrite List.length_map. apply length_map_to_list. Qed.

(** X7: [List] returns every registered name once, and as many names as
    there are registered adapters. *)
Theorem List_NoDup_size (adapters : gmap string (unit -> A)) :
  List.NoDup (List adapters) /\ length (List adapters) = size adapters.
Proof.
  split; [|apply List_length].
  unfold List. rewrite map_fst_fmap. apply NoDup_ListNoDup, NoDup_fst_map_to_list.
Qed.

(** X8: after [Register(name, factory)] the names are the name registered
    and the names there were; the number of names grows by one when the
    name is new and stays when it replaces a registration. *)
Theorem List_after_Register (adapters : gmap string (unit -> A)) (name : string)
    (factory : unit -> A) :
  (forall n, In n (List (Register name factory adapters))
             <-> n = name \/ In n (List adapters))
  /\ length (List (Register name factory adapters))
     = if IsRegistered name adapters then length (List adapters)
       else S (length (List adapters)).
Proof.
  split.
  - intros n. rewrite !List_lookup. unfold Register.
    destruct (decide (n = name)) as [->|Hn].
    + rewrite lookup_insert_eq. split; [auto|eauto].
    + rewrite lookup_insert_ne by auto. split; [auto|]. intros [H|H]; [contradiction|exact H].
  - rewrite !List_length. unfold Register, IsRegistered.
    destruct (adapters !! name) as [f|] eqn:E.
    + now apply map_size_insert_Some.
    + now apply map_size_insert_None.
Qed.

End RegistryListFacts.

(** ** The git adapter: rigs, workers and the default branch *)

Section SplitFacts.

Import Adapter.

Lemma Split_nonempty (sep : ascii) (s : string) : Git.Split sep s <> [].
Proof.
  destruct s as [|c s]; simpl; [discriminate|].
  destruct (Ascii.eqb c sep); [discriminate|].
  destruct (Git.Split sep s); discriminate.
Qed.

Lemma Split_length_pos (sep : ascii) (s : string) :
  (0 <? length (Git.Split sep s))%nat = true.
Proof.
  pose proof (Split_nonempty sep s) as Hne.
  destruct (Git.Split sep s); [congruence|reflexivity].
Qed.

Lemma Split_no_sep (sep : ascii) (s : string) :
  List.Forall (fun p => Git.hasByte sep p = false) (Git.Split sep s).
Proof.
  induction s as [|c s IH]; simpl.
  - constructor; [reflexivity|constructor].
  - destruct (Ascii.eqb c sep) eqn:E.
    + constructor; [reflexivity|exact IH].
    + destruct (Git.Split sep s) as [|p ps].
      * constructor; [simpl; now rewrite E|constructor].
      * inversion IH as [|? ? Hp Hps]. subst.
        constructor; [simpl; now rewrite E, Hp|exact Hps].
Qed.

Lemma Split_concat (sep : ascii) (s : string) :
  String.concat (String sep "") (Git.Split sep s) = s.
Proof.
  induction s as [|c s IH]; simpl; [reflexivity|].
  destruct (Ascii.eqb_spec c sep) as [->|N].
  - pose proof (Split_nonempty sep s) as Hne.
    destruct (Git.Split sep s) as [|p ps]; [congruence|].
    simpl in *. now rewrite IH.
  - pose proof (Split_nonempty sep s) as Hne.
    destruct (Git.Split sep s) as [|p ps]; [congruence|].
    simpl in *. destruct ps; simpl in *; now rewrite <- IH.
Qed.

Lemma last_In (l : list string) (d : string) : l <> [] -> In (List.last l d) l.
Proof.
  induction l as [|x l IH]; [congruence|]. intros _.
  destruct l as [|y l]; [left; reflexivity|].
  right. apply IH. discriminate.
Qed.

Lemma append_assoc (a b c : string) : (a +:+ b) +:+ c = a +:+ (b +:+ c).
Proof.
  induction a as [|x a IH]; [reflexivity|].
  change (String x ((a +:+ b) +:+ c) = String x (a +:+ (b +:+ c))).
  f_equal. exact IH.
Qed.

Lemma concat_last (sep : string) (l : list string) :
  l <> [] -> exists p, String.concat sep l = p +:+ List.last l "".
Proof.
  induction l as [|x l IH]; [congruence|]. intros _.
  destruct l as [|y l]; [exists ""; reflexivity|].
  destruct IH as [p Hp]; [discriminate|].
  exists (x +:+ sep +:+ p).
  change (String.concat sep (x :: y :: l))
    with (x +:+ sep +:+ String.concat sep (y :: l)).
  change (List.last (x :: y :: l) "") with (List.last (y :: l) "").
  rewrite Hp. now rewrite !append_assoc.
Qed.

(** The last piece is what follows the last occurrence of the separator. *)
Lemma Split_last (sep : ascii) (s : string) :
  Git.hasByte sep (List.last (Git.Split sep s) "") = false
  /\ exists p, s = p +:+ List.last (Git.Split sep s) "".
Proof.
  split.
  - pose proof (Split_no_sep sep s) as H. rewrite List.Forall_forall in H.
    apply H, last_In, Split_nonempty.
  - destruct (concat_last (String sep "") (Git.Split sep s) (Split_nonempty sep s))
      as [p Hp].
    exists p. now rewrite <- Hp, Split_concat.
Qed.

End SplitFacts.

Section GitWorkerFacts.

Import Adapter.

Variable World : Type.
Variable exec : Capture -> Cmd -> World -> (string * option string) * World.
Variable MkdirAll : string -> Z -> World -> option string * World.
Variable Join : list string -> string.
Variable Dir : string -> string.
Variable Base : string -> string.
Variable TrimSpace : string -> string.

Lemma firstVerified_main_master (bare : string) (w : World) :
  (Git.fallbackBranch World exec bare w).1 = "main"
  \/ ((Git.fallbackBranch World exec bare w).1 = "master"
      /\ exists o e w1,
           exec Run (mkCmd "git" ["rev-parse"; "--verify"; "main"] bare) w
           = ((o, Some e), w1)).
Proof.
  unfold Git.fallbackBranch. simpl.
  destruct (exec Run (mkCmd "git" ["rev-parse"; "--verify"; "main"] bare) w)
    as [[o1 [e1|]] w1] eqn:E1; simpl; [|now left].
  destruct (exec Run _ w1) as [[o2 [e2|]] w2]; simpl; [now left|].
  right. split; [reflexivity|]. eauto.
Qed.

(** X9: the default branch never contains a slash: it is what follows
    the last slash of the reference [symbolic-ref] prints, or main, or
    master. *)
Theorem getDefaultBranch_no_slash (g : GitAdapter) (w : World) :
  Git.hasByte "/"%char (Git.getDefaultBranch World exec TrimSpace g w).1 = false.
Proof.
  unfold Git.getDefaultBranch.
  destruct (exec Output _ w) as [[out [err|]] w1].
  - destruct (firstVerified_main_master (bareRepoPath g) w1) as [H|[H _]];
      rewrite H; reflexivity.
  - rewrite Split_length_pos. apply Split_last.
Qed.

(** X10: when [symbolic-ref] succeeds, the default branch is the text
    after the last slash of its trimmed output, empty if that output is
    empty or ends with a slash, and the common names are not tried; when
    it fails, the default branch is main or master, and master only if
    main could not be verified. *)
Theorem getDefaultBranch_cases (g : GitAdapter) (w w1 : World) (out : string)
    (err : option string) :
  exec Output (mkCmd "git" ["symbolic-ref"; "refs/remotes/origin/HEAD"]
                 (bareRepoPath g)) w = ((out, err), w1) ->
  match err with
  | None =>
      Git.getDefaultBranch World exec TrimSpace g w
      = (List.last (Git.Split "/"%char (TrimSpace out)) "", w1)
      /\ exists p,
           TrimSpace out = p +:+ (Git.getDefaultBranch World exec TrimSpace g w).1
  | Some _ =>
      (Git.getDefaultBranch World exec TrimSpace g w).1 = "main"
      \/ ((Git.getDefaultBranch World exec TrimSpace g w).1 = "master"
          /\ exists o e w2,
               exec Run (mkCmd "git" ["rev-parse"; "--verify"; "main"]
                           (bareRepoPath g)) w1
               = ((o, Some e), w2))
  end.
Proof.
  intros H. unfold Git.getDefaultBranch. rewrite H. destruct err as [e|].
  - apply firstVerified_main_master.
  - rewrite Split_length_pos. split; [reflexivity|]. apply Split_last.
Qed.

(** X11: [RigInit] without a usable [git_url] (none, not a string, or the
    empty string) fails before it touches anything outside: no directory
    is made and no command is run.  The adapter has all the same taken
    the rig path and the configuration. *)
Theorem RigInit_requires_git_url (path : string) (cfg : RigConfig)
    (g : GitAdapter) (w : World) :
  (forall url, cfgExtra cfg !! "git_url" = Some (AnyString url) -> url = "") ->
  Git.RigInit World exec MkdirAll Join path cfg g w
  = (mkGitAdapter path (bareRepoPath g) (workerPath g) cfg,
     Some "git adapter requires git_url in config", w).
Proof.
  intros H. unfold Git.RigInit, Git.extraString.
  destruct (cfgExtra cfg !! "git_url") as [[url|]|]; simpl; try reflexivity.
  now rewrite (H url eq_refl).
Qed.




Lemma WorkerCreate_shape (path : string) (g g' : GitAdapter) (w w' : World)
    (e : option string) :
  Git.WorkerCreate World exec Join Dir Base TrimSpace path g w = (g', e, w') ->
  rigPath g' = rigPath g /\ config g' = config g
  /\ bareRepoPath g'
     = (if String.eqb (bareRepoPath g) "" then Join [Dir (Dir path); ".repo.git"]
        else bareRepoPath g)
  /\ workerPath g' = match e with None => path | Some _ => workerPath g end.
Proof.
  unfold Git.WorkerCreate.
  destruct (Git.getDefaultBranch World exec TrimSpace _ w) as [branch w1].
  destruct (exec CombinedOutput _ w1) as [[out [err|]] w2];
    intros H; inversion H; subst; clear H;
    destruct (String.eqb (bareRepoPath g) ""); simpl; auto.
Qed.

(** X14: [WorkerCreate] changes the worker path only when it succeeds,
    and then to the path given, which [BuildRoot] returns from then on;
    it fills in the bare repository path, from the worker path, only if
    the adapter held none, whether it succeeds or not; the rig path and
    the configuration stay. *)
Theorem WorkerCreate_effect (path : string) (g g' : GitAdapter) (w w' : World)
    (e : option string) :
  Git.WorkerCreate World exec Join Dir Base TrimSpace path g w = (g', e, w') ->
  rigPath g' = rigPath g /\ config g' = config g
  /\ bareRepoPath g'
     = (if String.eqb (bareRepoPath g) "" then Join [Dir (Dir path); ".repo.git"]
        else bareRepoPath g)
  /\ workerPath g' = match e with None => path | Some _ => workerPath g end
  /\ (e = None -> Git.BuildRoot g' = path).
Proof.
  intros H.
  destruct (WorkerCreate_shape path g g' w w' e H) as (H1 & H2 & H3 & H4).
  repeat (split; [assumption|]).
  intros ->. exact H4.
Qed.

(** X15: after a [WorkerCreate] that succeeded for a non-empty path,
    [Sync] has an active worker: it does not fail with no active worker,
    and every command it runs is run in the path of the worker created. *)
Theorem WorkerCreate_then_Sync (path : string) (g g' : GitAdapter) (w w' : World) :
  Git.WorkerCreate World exec Join Dir Base TrimSpace path g w = (g', None, w') ->
  path <> "" ->
  (Git.Sync World exec g' w').1 <> Some "no active worker"
  /\ forall cmd,
       In cmd (Git.Sync (World * list Cmd) (Git.recording World exec) g' (w', [])).2.2 ->
       cmdDir cmd = path.
Proof.
  intros H Hne.
  destruct (WorkerCreate_shape path g g' w w' None H) as (_ & _ & _ & Hw).
  split.
  - unfold Git.Sync. rewrite Hw.
    destruct (String.eqb_spec path "") as [->|_]; [congruence|].
    destruct (exec CombinedOutput _ w') as [[o1 [e1|]] w1]; simpl; [discriminate|].
    destruct (exec CombinedOutput _ w1) as [[o2 [e2|]] w2]; simpl; discriminate.
  - intros cmd Hin. rewrite <- Hw.
    destruct (Sync_commands World exec g' w' [] cmd Hin) as [[]|Hd]. exact Hd.
Qed.

(** X16: [Sync] returns no error only after a fetch and a pull that both
    succeeded, in the worker path; when it fails it has run nothing (no
    active worker), or stopped at the fetch that failed, without a pull,
    or at the pull that failed. *)
Theorem Sync_outcome (g : GitAdapter) (w w' : World) (e : option string)
    (log : list (Cmd * bool)) :
  Git.Sync (World * list (Cmd * bool)) (Git.tracing World exec) g (w, [])
  = (e, (w', log)) ->
  let fetch := mkCmd "git" ["fetch"; "origin"] (workerPath g) in
  let pull := mkCmd "git" ["pull"; "--rebase"] (workerPath g) in
  match e with
  | None => workerPath g <> "" /\ log = [(fetch, true); (pull, true)]
  | Some d =>
      (workerPath g = "" /\ d = "no active worker" /\ log = [] /\ w' = w)
      \/ (workerPath g <> "" /\ log = [(fetch, false)])
      \/ (workerPath g <> "" /\ log = [(fetch, true); (pull, false)])
  end.
Proof.
  unfold Git.Sync, Git.tracing.
  destruct (String.eqb_spec (workerPath g) "") as [E|N]; simpl.
  { intros H. inversion H. subst. left. auto. }
  destruct (exec CombinedOutput _ w) as [[o1 [e1|]] w1]; simpl.
  { intros H. inversion H. subst. right. left. auto. }
  destruct (exec CombinedOutput _ w1) as [[o2 [e2|]] w2]; simpl;
    intros H; inversion H; subst; auto.
Qed.

(** X17: [Submit] returns no error only after it read the current branch
    and pushed that branch, trimmed, to origin, both in the directory of
    the worker; it never pushes when the branch could not be read. *)
Theorem Submit_outcome (IsAbs : string -> bool) (worker : string)
    (g : GitAdapter) (w w' : World) (e : option string) (log : list (Cmd * bool)) :
  Git.Submit (World * list (Cmd * bool)) (Git.tracing World exec)
    IsAbs Join TrimSpace worker g (w, []) = (e, (w', log)) ->
  let dir := Git.submitPath IsAbs Join worker g in
  let rev := mkCmd "git" ["rev-parse"; "--abbrev-ref"; "HEAD"] dir in
  match e with
  | None =>
      exists out w1,
        exec Output rev w = ((out, None), w1)
        /\ log = [(rev, true);
                  (mkCmd "git" ["push"; "-u"; "origin"; TrimSpace out] dir, true)]
  | Some d =>
      log = [(rev, false)]
      \/ exists out w1,
           exec Output rev w = ((out, None), w1)
           /\ log = [(rev, true);
                     (mkCmd "git" ["push"; "-u"; "origin"; TrimSpace out] dir, false)]
  end.
Proof.
  unfold Git.Submit, Git.tracing. simpl.
  destruct (exec Output _ w) as [[o1 [e1|]] w1] eqn:E1; simpl.
  { intros H. inversion H. subst. left. reflexivity. }
  destruct (exec CombinedOutput _ w1) as [[o2 [e2|]] w2]; simpl;
    intros H; inversion H; subst.
  - right. eauto.
  - eauto.
Qed.

End GitWorkerFacts.

(** ** What the commands print *)

Section StringFacts.

Lemma append_cons (c : ascii) (a b : string) :
  String c a +:+ b = String c (a +:+ b).
Proof. reflexivity. Qed.





End StringFacts.

Section PrintingFacts.

Import MQ MQOutput.

Variable Bold : string -> string.
Variable Dim : string -> string.
Variable formatMRAge : Z -> string.
Variable ParseMRFields : Issue -> option MRFields.


(** X19: the line naming a blocker is printed exactly for a row shown as
    blocked whose BlockedBy list is not empty, and names the first of the
    list; a request blocked by its count alone is shown as blocked with
    no such line. *)
Theorem tableRow_waiting_line (issue : Issue) :
  let row := tableRow Bold Dim formatMRAge ParseMRFields issue in
  match BlockedBy issue with
  | blocker :: _ =>
      waitingOn row
      = if String.eqb (displayStatus issue) "blocked" then
          Some (Dim ("             (waiting on " +:+ blocker +:+ ")"))
        else None
  | [] =>
      waitingOn row = None
      /\ (Status issue = "open" -> (0 < BlockedByCount issue)%Z ->
          displayStatus issue = "blocked")
  end.
Proof.
  simpl. destruct (BlockedBy issue) as [|b l] eqn:E.
  - split; [now rewrite andb_false_r|].
    intros Hs Hc. unfold displayStatus, hasBlockers. rewrite Hs, E. simpl.
    apply Z.ltb_lt in Hc. now rewrite Hc.
  - simpl. now rewrite andb_true_r.
Qed.

Variable getRefineryManager : string -> option string.
Variable bReady : list Issue + string.
Variable bList : ListOptions -> list Issue + string.
Variable EqualFold : string -> string -> bool.


End PrintingFacts.

(** X21: the priority column tells priorities apart: two priorities
    printed alike are equal. *)
Theorem formatPriority_injective (p q : Z) :
  MQOutput.formatPriority p = MQOutput.formatPriority q -> p = q.
Proof.
  unfold MQOutput.formatPriority. intros H.
  change (String "P" (NilZero.string_of_int (Z.to_int p))
          = String "P" (NilZero.string_of_int (Z.to_int q))) in H.
  inversion H as [H1]. clear H.
  assert (Hnn : forall z, Z.to_int z <> Decimal.Pos Decimal.Nil
                          /\ Z.to_int z <> Decimal.Neg Decimal.Nil).
  { intros [|z|z]; simpl; split; try discriminate; intros E; inversion E as [E1];
      exact (DecimalPos.Unsigned.to_uint_nonnil z E1). }
  apply DecimalZ.to_int_inj.
  assert (Hs : Some (Z.to_int p) = Some (Z.to_int q)).
  { rewrite <- (NilZero.isi (Z.to_int p)) by apply Hnn.
    rewrite <- (NilZero.isi (Z.to_int q)) by apply Hnn.
    now rewrite H1. }
  now inversion Hs.
Qed.

Section CommandFacts.

Import MQ MQOutput.

Variable Bold : string -> string.
Variable Dim : string -> string.
Variable getRefineryManager : string -> option string.
Variable bReady : list Issue + string.
Variable bList : ListOptions -> list Issue + string.
Variable ParseMRFields : Issue -> option MRFields.
Variable EqualFold : string -> string -> bool.
Variable Manager : Type.
Variable mgrGetMR : Manager -> string -> Issue + Refinery.error.
Variable mgrRetry : Manager -> string -> bool -> Manager * option Refinery.error.
Variable mgrRejectMR :
  Manager -> string -> string -> bool ->
  Manager * (Refinery.RejectResult + Refinery.error).
Variable errorText : Refinery.error -> string.

(** X22: with [--ready], the [--status] flag has no effect on what
    [mq list] returns. *)
Theorem ready_ignores_status (rigName : string) (f : ListFlags) (status : string) :
  mqListReady f = true ->
  runMQList getRefineryManager bReady bList ParseMRFields EqualFold rigName f
  = runMQList getRefineryManager bReady bList ParseMRFields EqualFold rigName
      (mkListFlags true status (mqListWorker f) (mqListEpic f) (mqListJSON f)).
Proof.
  intros H. unfold runMQList, queryIssues, keepIssue. simpl. now rewrite H.
Qed.


(** X24: [mq retry] returns no error exactly when the manager was had,
    the request was found and the retry did not fail.  Once the request
    is found, the lines naming the request, its branch and its worker are
    printed, also when the retry is then refused; the lines of success
    follow only when no error is returned.  When the request is not found
    nothing is printed and the manager is not called again. *)
Theorem runMQRetryOutput_lines (mgr mgr' : Manager) (rigName mrID : string)
    (mqRetryNow : bool) (lines : list string) (err : option string) :
  runMQRetryOutput Bold Dim getRefineryManager Manager mgrGetMR mgrRetry
    errorText mgr rigName mrID mqRetryNow = (mgr', lines, err) ->
  (err = None
   <-> getRefineryManager rigName = None
       /\ (exists mr, mgrGetMR mgr mrID = inl mr)
       /\ (mgrRetry mgr mrID mqRetryNow).2 = None)
  /\ (forall mr, getRefineryManager rigName = None -> mgrGetMR mgr mrID = inl mr ->
        mgr' = (mgrRetry mgr mrID mqRetryNow).1
        /\ lines = (retryHeader Dim mrID mr
                    ++ match err with
                       | None => retryFooter Bold Dim mqRetryNow
                       | Some _ => []
                       end)%list)
  /\ (forall e, getRefineryManager rigName = None -> mgrGetMR mgr mrID = inr e ->
        lines = [] /\ mgr' = mgr).
Proof.
  unfold runMQRetryOutput.
  destruct (getRefineryManager rigName) as [m|].
  { intros H. inversion H. subst. split; [|split]; try discriminate.
    split; [discriminate|]. intros [H1 _]. discriminate. }
  destruct (mgrGetMR mgr mrID) as [mr|e] eqn:G.
  - destruct (mgrRetry mgr mrID mqRetryNow) as [m2 [e2|]] eqn:R; simpl.
    + assert (Hl : (mgr', lines, err) = (mgr', lines, err)) by reflexivity.
      intros H.
      assert (Hs : mgr' = m2 /\ lines = retryHeader Dim mrID mr
                   /\ exists msg, err = Some msg).
      { destruct e2; inversion H; subst; eauto. }
      destruct Hs as (-> & -> & msg & ->).
      split; [|split].
      * split; [discriminate|]. intros (_ & _ & H3). discriminate.
      * intros mr' _ Hm. inversion Hm. subst. now rewrite app_nil_r.
      * intros e _ Hm. discriminate.
    + intros H. inversion H. subst. split; [|split].
      * split; [eauto|reflexivity].
      * intros mr' _ Hm. inversion Hm. subst. auto.
      * intros e _ Hm. discriminate.
  - intros H.
    assert (Hs : mgr' = mgr /\ lines = [] /\ exists msg, err = Some msg).
    { destruct e; inversion H; subst; eauto. }
    destruct Hs as (-> & -> & msg & ->).
    split; [|split].
    + split; [discriminate|]. intros (_ & [mr Hm] & _). discriminate.
    + intros mr _ Hm. discriminate.
    + auto.
Qed.


End CommandFacts.

(** The command with its output and the command alone return the same
    manager and the same error. *)
Lemma runMQRetryOutput_agrees (Bold Dim : string -> string)
    (getRefineryManager : string -> option string)
    (adapterSync adapterSubmit : string -> option string)
    (errorText : Refinery.error -> string)
    (st : gmap string Issue) (rigName mrID : string) (mqRetryNow : bool) :
  MQ.runMQRetry getRefineryManager adapterSync adapterSubmit errorText
    st rigName mrID mqRetryNow
  = ((MQOutput.runMQRetryOutput Bold Dim getRefineryManager (gmap string Issue)
        Refinery.GetMR (Refinery.Retry adapterSync adapterSubmit) errorText
        st rigName mrID mqRetryNow).1.1,
     (MQOutput.runMQRetryOutput Bold Dim getRefineryManager (gmap string Issue)
        Refinery.GetMR (Refinery.Retry adapterSync adapterSubmit) errorText
        st rigName mrID mqRetryNow).2).
Proof.
  unfold MQ.runMQRetry, MQOutput.runMQRetryOutput.
  destruct (getRefineryManager rigName); [reflexivity|].
  destruct (Refinery.GetMR st mrID) as [mr|[]]; try reflexivity.
  destruct (Refinery.Retry adapterSync adapterSubmit st mrID mqRetryNow)
    as [st' [[]|]]; reflexivity.
Qed.

(** ** Running with a record of the commands changes nothing else *)

Section TracingFacts.

Import Adapter.

Variable World : Type.
Variable exec : Capture -> Cmd -> World -> (string * option string) * World.
Variable MkdirAll : string -> Z -> World -> option string * World.
Variable IsAbs : string -> bool.
Variable Join : list string -> string.
Variable TrimSpace : string -> string.

Lemma tracing_Sync (g : GitAdapter) (w : World) (log : list (Cmd * bool)) :
  ((Git.Sync (World * list (Cmd * bool)) (Git.tracing World exec) g (w, log)).1,
   (Git.Sync (World * list (Cmd * bool)) (Git.tracing World exec) g (w, log)).2.1)
  = Git.Sync World exec g w.
Proof.
  unfold Git.Sync, Git.tracing.
  destruct (String.eqb (workerPath g) ""); simpl; [reflexivity|].
  destruct (exec CombinedOutput _ w) as [[o1 [e1|]] w1]; simpl; [reflexivity|].
  destruct (exec CombinedOutput _ w1) as [[o2 [e2|]] w2]; reflexivity.
Qed.

Lemma tracing_Submit (worker : string) (g : GitAdapter) (w : World)
    (log : list (Cmd * bool)) :
  ((Git.Submit (World * list (Cmd * bool)) (Git.tracing World exec)
      IsAbs Join TrimSpace worker g (w, log)).1,
   (Git.Submit (World * list (Cmd * bool)) (Git.tracing World exec)
      IsAbs Join TrimSpace worker g (w, log)).2.1)
  = Git.Submit World exec IsAbs Join TrimSpace worker g w.
Proof.
  unfold Git.Submit, Git.tracing. simpl.
  destruct (exec Output _ w) as [[o1 [e1|]] w1]; simpl; [reflexivity|].
  destruct (exec CombinedOutput _ w1) as [[o2 [e2|]] w2]; reflexivity.
Qed.

Lemma tracing_RigInit (path : string) (cfg : RigConfig) (g : GitAdapter)
    (w : World) (log : list (Cmd * bool)) :
  ((Git.RigInit (World * list (Cmd * bool)) (Git.tracing World exec)
      (Git.tracingMkdirAll World MkdirAll) Join path cfg g (w, log)).1,
   (Git.RigInit (World * list (Cmd * bool)) (Git.tracing World exec)
      (Git.tracingMkdirAll World MkdirAll) Join path cfg g (w, log)).2.1)
  = Git.RigInit World exec MkdirAll Join path cfg g w.
Proof.
  unfold Git.RigInit, Git.tracing, Git.tracingMkdirAll.
  destruct (Git.extraString cfg "git_url") as [url ok].
  destruct (negb ok || String.eqb url ""); simpl; [reflexivity|].
  destruct (MkdirAll path 493 w) as [[e|] w1]; simpl; [reflexivity|].
  destruct (exec CombinedOutput _ w1) as [[out [e|]] w2]; reflexivity.
Qed.

End TracingFacts.

(** ** The further theorems at sample inputs *)

Lemma getDefaultBranch_cases_witness :
  Adapter.Git.getDefaultBranch unit quietExec (fun s => s)
    Adapter.emptyGitAdapter tt
  = ("Nux", tt).
Proof.
  exact (proj1 (getDefaultBranch_cases unit quietExec (fun s => s)
                  Adapter.emptyGitAdapter tt tt "polecat/Nux" None eq_refl)).
Defined.

Lemma RigInit_requires_git_url_witness :
  Adapter.Git.RigInit unit quietExec quietMkdirAll unixJoin "/rig" noURLConfig
    Adapter.emptyGitAdapter tt
  = (Adapter.mkGitAdapter "/rig" "" "" noURLConfig,
     Some "git adapter requires git_url in config", tt).
Proof.
  assert (H : forall url,
            Adapter.cfgExtra noURLConfig !! "git_url"
            = Some (Adapter.AnyString url) -> url = "").
  { intros url H. vm_compute in H. discriminate H. }
  exact (RigInit_requires_git_url unit quietExec quietMkdirAll unixJoin "/rig"
           noURLConfig Adapter.emptyGitAdapter tt H).
Defined.



(** The adapter of a rig at [/rig], and the same after the worker Nux was
    created. *)
Lemma WorkerCreate_sample :
  Adapter.Git.WorkerCreate unit quietExec unixJoin (fun s => s) (fun s => s)
    (fun s => s) "/rig/polecats/Nux"
    (Adapter.Git.SetRigPath unixJoin "/rig" Adapter.emptyGitAdapter) tt
  = (Adapter.Git.SetWorkerPath "/rig/polecats/Nux"
       (Adapter.Git.SetRigPath unixJoin "/rig" Adapter.emptyGitAdapter),
     None, tt).
Proof. vm_compute. reflexivity. Qed.

Lemma WorkerCreate_effect_witness :
  Adapter.Git.BuildRoot
    (Adapter.Git.SetWorkerPath "/rig/polecats/Nux"
       (Adapter.Git.SetRigPath unixJoin "/rig" Adapter.emptyGitAdapter))
  = "/rig/polecats/Nux".
Proof.
  destruct (WorkerCreate_effect unit quietExec unixJoin (fun s => s) (fun s => s)
              (fun s => s) "/rig/polecats/Nux" _ _ tt tt None WorkerCreate_sample)
    as (_ & _ & _ & _ & Hb).
  exact (Hb eq_refl).
Defined.

Lemma WorkerCreate_then_Sync_witness :
  (Adapter.Git.Sync unit quietExec
     (Adapter.Git.SetWorkerPath "/rig/polecats/Nux"
        (Adapter.Git.SetRigPath unixJoin "/rig" Adapter.emptyGitAdapter)) tt).1
  <> Some "no active worker"
  /\ Adapter.Git.Sync unit quietExec
       (Adapter.Git.SetWorkerPath "/rig/polecats/Nux"
          (Adapter.Git.SetRigPath unixJoin "/rig" Adapter.emptyGitAdapter)) tt
     = (None, tt).
Proof.
  split; [|reflexivity].
  exact (proj1 (WorkerCreate_then_Sync unit quietExec unixJoin (fun s => s)
                  (fun s => s) (fun s => s) "/rig/polecats/Nux" _ _ tt tt
                  WorkerCreate_sample ltac:(discriminate))).
Defined.

Lemma Sync_outcome_witness :
  Adapter.workerPath (Adapter.Git.SetWorkerPath "/rig/polecats/Nux"
                        Adapter.emptyGitAdapter) <> ""
  /\ [(Adapter.mkCmd "git" ["fetch"; "origin"] "/rig/polecats/Nux", false)]
     = [(Adapter.mkCmd "git" ["fetch"; "origin"] "/rig/polecats/Nux", false)].
Proof.
  assert (H : Adapter.Git.Sync (unit * list (Adapter.Cmd * bool))
                (Adapter.Git.tracing unit failingExec)
                (Adapter.Git.SetWorkerPath "/rig/polecats/Nux"
                   Adapter.emptyGitAdapter) (tt, [])
              = (Some "fetching from origin: exit status 128: fatal: not a git repository",
                 (tt, [(Adapter.mkCmd "git" ["fetch"; "origin"] "/rig/polecats/Nux",
                        false)])))
    by reflexivity.
  destruct (Sync_outcome unit failingExec _ tt tt _ _ H)
    as [(Hw & _)|[(Hn & Hl)|(Hn & Hl)]].
  - discriminate Hw.
  - exact (conj Hn Hl).
  - discriminate Hl.
Defined.

Lemma Submit_outcome_witness :
  exists out w1,
    quietExec Adapter.Output
      (Adapter.mkCmd "git" ["rev-parse"; "--abbrev-ref"; "HEAD"] "/rig/polecats/Nux")
      tt = ((out, None), w1)
    /\ [(Adapter.mkCmd "git" ["rev-parse"; "--abbrev-ref"; "HEAD"] "/rig/polecats/Nux",
         true);
        (Adapter.mkCmd "git" ["push"; "-u"; "origin"; "polecat/Nux"]
           "/rig/polecats/Nux", true)]
       = [(Adapter.mkCmd "git" ["rev-parse"; "--abbrev-ref"; "HEAD"]
             "/rig/polecats/Nux", true);
          (Adapter.mkCmd "git" ["push"; "-u"; "origin"; out] "/rig/polecats/Nux",
           true)].
Proof.
  exact (Submit_outcome unit quietExec unixJoin (fun s => s) unixIsAbs "Nux"
           (Adapter.Git.SetRigPath unixJoin "/rig" Adapter.emptyGitAdapter)
           tt tt None _ eq_refl).
Defined.

Lemma formatPriority_injective_witness :
  MQOutput.formatPriority 0 = "P0" /\ (0 = 0)%Z.
Proof.
  split; [reflexivity|].
  exact (formatPriority_injective 0 0 eq_refl).
Defined.

Lemma ready_ignores_status_witness :
  MQ.runMQList managerOk (inl [workItem; claimedRequest]) (fun _ => inl [])
    (fun _ => None) String.eqb "gastown" readyFlags
  = MQ.runMQList managerOk (inl [workItem; claimedRequest]) (fun _ => inl [])
      (fun _ => None) String.eqb "gastown"
      (MQ.mkListFlags true "closed" "" "" false).
Proof.
  exact (ready_ignores_status managerOk (inl [workItem; claimedRequest])
           (fun _ => inl []) (fun _ => None) String.eqb "gastown" readyFlags
           "closed" eq_refl).
Defined.

(** A manager that finds the request in progress and refuses the retry,
    and one that rejects a request linked to an issue. *)
Lemma runMQRetryOutput_lines_witness :
  ["Retrying merge request: mr-2"; "  Branch: polecat/Toast/work-2";
   "  Worker: Toast"]
  = (MQOutput.retryHeader (fun s => s) "mr-2" claimedRequest ++ [])%list.
Proof.
  assert (H : MQOutput.runMQRetryOutput (fun s => s) (fun s => s) managerOk
                (gmap string Issue) Refinery.GetMR
                (Refinery.Retry adapterOk adapterOk) plainErrorText
                sampleStore "gastown" "mr-2" true
              = (sampleStore,
                 ["Retrying merge request: mr-2"; "  Branch: polecat/Toast/work-2";
                  "  Worker: Toast"],
                 Some "merge request 'mr-2' has not failed (status: in_progress)"))
    by (vm_compute; reflexivity).
  assert (Hg : Refinery.GetMR sampleStore "mr-2" = inl claimedRequest)
    by (vm_compute; reflexivity).
  destruct (runMQRetryOutput_lines (fun s => s) (fun s => s) managerOk
              (gmap string Issue) Refinery.GetMR
              (Refinery.Retry adapterOk adapterOk) plainErrorText
              sampleStore sampleStore "gastown" "mr-2" true _ _ H)
    as (_ & Hl & _).
  exact (proj2 (Hl claimedRequest eq_refl Hg)).
Defined.


(** ** The age column, and a worker given by its path *)

Section AgeFacts.

Import MQAge.

Variable Time : Type.
Variable Parse : string -> string -> option Time.
Variable Since : Time -> Z.
Variable intSeconds : Z -> Z.
Variable intMinutes : Z -> Z.
Variable intHours : Z -> Z.
Variable intDays : Z -> Z.

Lemma lastByte_append (s : string) (c : ascii) :
  lastByte (s +:+ String c "") = Some c.
Proof.
  induction s as [|x s IH]; [reflexivity|].
  rewrite append_cons. simpl.
  destruct (s +:+ String c "") eqn:E; [|exact IH].
  destruct s; discriminate E.
Qed.

(** X27: the age of a merge request is a question mark exactly when its
    timestamp parses in neither layout; otherwise it ends with the unit s
    below a minute, m below an hour, h below a day and d from a day on.
    A timestamp in the future gives a negative duration, which is below a
    minute, so its age is printed in seconds however far ahead it is. *)
Theorem formatMRAge_unit (createdAt : string) :
  match parseCreatedAt Time Parse createdAt with
  | None =>
      formatMRAge Time Parse Since intSeconds intMinutes intHours intDays createdAt
      = "?"
      /\ Parse RFC3339 createdAt = None
      /\ Parse "2006-01-02T15:04:05Z" createdAt = None
  | Some t =>
      lastByte (formatMRAge Time Parse Since intSeconds intMinutes intHours
                  intDays createdAt)
      = Some (if (Since t <? 60000000000)%Z then "s"%char
              else if (Since t <? 3600000000000)%Z then "m"%char
              else if (Since t <? 86400000000000)%Z then "h"%char
              else "d"%char)
      /\ ((Since t < 0)%Z ->
          formatMRAge Time Parse Since intSeconds intMinutes intHours intDays
            createdAt
          = formatInt (intSeconds (Since t)) +:+ "s")
  end.
Proof.
  unfold formatMRAge.
  destruct (parseCreatedAt Time Parse createdAt) as [t|] eqn:E.
  - change (24 * Hour)%Z with 86400000000000%Z.
    change Hour with 3600000000000%Z. change Minute with 60000000000%Z.
    split.
    + destruct (Since t <? 60000000000)%Z; [apply lastByte_append|].
      destruct (Since t <? 3600000000000)%Z; [apply lastByte_append|].
      destruct (Since t <? 86400000000000)%Z; apply lastByte_append.
    + intros Hneg.
      assert (Hlt : (Since t <? 60000000000)%Z = true) by (apply Z.ltb_lt; lia).
      now rewrite Hlt.
  - split; [reflexivity|]. unfold parseCreatedAt in E.
    destruct (Parse RFC3339 createdAt); [discriminate|]. auto.
Qed.

End AgeFacts.

Section SubmitPathFacts.

Import Adapter.

Variable World : Type.
Variable exec : Capture -> Cmd -> World -> (string * option string) * World.
Variable IsAbs : string -> bool.
Variable Join : list string -> string.
Variable TrimSpace : string -> string.

(** X26: [Submit] of a worker given by an absolute path reads nothing of
    the adapter: any two adapters, also one fresh from the registry, run
    the same commands in that path and return the same. *)
Theorem Submit_absolute_worker (worker : string) (g g' : GitAdapter) (w : World) :
  IsAbs worker = true ->
  Git.submitPath IsAbs Join worker g = worker
  /\ Git.Submit World exec IsAbs Join TrimSpace worker g w
     = Git.Submit World exec IsAbs Join TrimSpace worker g' w.
Proof.
  intros H. unfold Git.Submit, Git.submitPath. now rewrite H.
Qed.

End SubmitPathFacts.

Lemma Submit_absolute_worker_witness :
  Adapter.Git.Submit unit quietExec unixIsAbs unixJoin (fun s => s)
    "/rig/polecats/Nux" Adapter.emptyGitAdapter tt
  = Adapter.Git.Submit unit quietExec unixIsAbs unixJoin (fun s => s)
      "/rig/polecats/Nux"
      (Adapter.Git.SetRigPath unixJoin "/elsewhere" Adapter.emptyGitAdapter) tt.
Proof.
  exact (proj2 (Submit_absolute_worker unit quietExec unixIsAbs unixJoin
                  (fun s => s) "/rig/polecats/Nux" Adapter.emptyGitAdapter
                  (Adapter.Git.SetRigPath unixJoin "/elsewhere"
                     Adapter.emptyGitAdapter) tt eq_refl)).
Defined.
